(** * A chat service with an agent loop: model of [src/index.js]

    The service keeps one transcript per session in a process-wide map,
    calls a remote model in a bounded loop, runs the tools the model asks
    for and reports a reply.  This file embeds the tool dispatcher
    [executeTool], the three [/chat] handlers and the loop inside
    [POST /chat], and proves the properties the specification states about
    them. *)

From Stdlib Require Import String Ascii ZArith NArith List Lia.
From stdpp Require Import base option list gmap strings pretty.

Set Default Proof Using "Type".
Set Warnings "-register-all".
Local Open Scope string_scope.

(** ** JavaScript values

    Values that reach the handlers are parsed JSON, plus [undefined] for an
    absent property or argument.  JSON numbers are IEEE doubles; the code
    only tests them for truthiness and converts them to strings, so the
    number type and these two operations are left abstract. *)

Inductive value (number : Type) : Type :=
| Undefined
| Null
| Bool (b : bool)
| Num (n : number)
| Str (s : string)
| Arr (elements : list (value number))
| Obj (properties : list (string * value number)).

Arguments Undefined {number}.
Arguments Null {number}.
Arguments Bool {number} b.
Arguments Num {number} n.
Arguments Str {number} s.
Arguments Arr {number} elements.
Arguments Obj {number} properties.

(** Errors a handler can see thrown. *)
Inductive Error : Type :=
| TypeError (msg : string)
| RangeError (msg : string)
| APIError (msg : string).

(** The outcome of evaluating a JavaScript expression or call. *)
Inductive completion (A : Type) : Type :=
| Normal (a : A)
| Throw (e : Error).

Arguments Normal {A} a.
Arguments Throw {A} e.

(** The double quote character, used inside one template literal. *)
Definition dquote : string := String (ascii_of_nat 34) EmptyString.

(** Own property [key] of an object literal: the first binding of the key. *)
Fixpoint own_property {number} (key : string)
    (props : list (string * value number)) : value number :=
  match props with
  | [] => Undefined
  | (k, v) :: rest => if String.eqb k key then v else own_property key rest
  end.

(** [key] is an own property of an object literal. *)
Definition has_own_property {number} (key : string)
    (props : list (string * value number)) : bool :=
  existsb (fun binding => String.eqb (fst binding) key) props.

Section Values.
Context {number : Type}.
(** [number_falsy n]: [n] is [0], [-0] or [NaN]. *)
Variable number_falsy : number -> bool.
(** [Number.prototype.toString]. *)
Variable number_toString : number -> string.

Local Abbreviation value := (value number).

(** [ToBoolean]. *)
Definition truthy (v : value) : bool :=
  match v with
  | Undefined | Null => false
  | Bool b => b
  | Num n => negb (number_falsy n)
  | Str s => negb (String.eqb s "")
  | Arr _ | Obj _ => true
  end.

(** [a || b]. *)
Definition js_or (a b : value) : value := if truthy a then a else b.

(** [ToString].  A parsed object is converted by calling its [toString]:
    a plain object inherits the one that gives ["[object Object]"], but an
    object with an own [toString] property (which, parsed from JSON, is not
    a function) cannot be converted and throws a [TypeError].  An array joins
    the conversions of its elements with commas, from the first on, [null]
    and [undefined] elements giving the empty string. *)
Fixpoint ToString (v : value) : completion string :=
  match v with
  | Undefined => Normal "undefined"
  | Null => Normal "null"
  | Bool true => Normal "true"
  | Bool false => Normal "false"
  | Num n => Normal (number_toString n)
  | Str s => Normal s
  | Arr l =>
      (fix join (l : list value) : completion string :=
         match l with
         | [] => Normal ""
         | x :: rest =>
             match match x with
                   | Undefined | Null => Normal ""
                   | _ => ToString x
                   end with
             | Throw e => Throw e
             | Normal sx =>
                 match rest with
                 | [] => Normal sx
                 | _ :: _ =>
                     match join rest with
                     | Throw e => Throw e
                     | Normal srest => Normal (sx +:+ "," +:+ srest)
                     end
                 end
             end
         end) l
  | Obj props =>
      if has_own_property "toString" props
      then Throw (TypeError "Cannot convert object to primitive value")
      else Normal "[object Object]"
  end.

(** [v.key] for a key that no built-in prototype defines (such as
    [timezone]): reading a property of [undefined] or [null] throws a
    [TypeError]; an object gives its own property; every other value gives
    [undefined]. *)
Definition get_property (v : value) (key : string) : completion value :=
  match v with
  | Undefined =>
      Throw (TypeError ("Cannot read properties of undefined (reading '" +:+ key +:+ "')"))
  | Null =>
      Throw (TypeError ("Cannot read properties of null (reading '" +:+ key +:+ "')"))
  | Obj props => Normal (own_property key props)
  | Bool _ | Num _ | Str _ | Arr _ => Normal Undefined
  end.

(** [v] is neither [undefined] nor [null]. *)
Definition not_nullish (v : value) : bool :=
  match v with
  | Undefined | Null => false
  | _ => true
  end.

End Values.

(** ** Exceptions and state

    A computation reads and changes a state and either returns or throws;
    a throw keeps the state changes made before it, as in JavaScript. *)

Definition M (S A : Type) : Type := S -> completion A * S.

#[global] Instance M_ret {S} : MRet (M S) := fun A a s => (Normal a, s).

#[global] Instance M_bind {S} : MBind (M S) := fun A B f m s =>
  match m s with
  | (Normal a, s') => f a s'
  | (Throw e, s') => (Throw e, s')
  end.

(** [try { body } catch (error) { handler }]. *)
Definition try_catch {S A} (body : M S A) (handler : Error -> M S A) : M S A :=
  fun s =>
    match body s with
    | (Normal a, s') => (Normal a, s')
    | (Throw e, s') => handler e s'
    end.

(** Lift a completion that does not touch the state. *)
Definition lift {S A} (c : completion A) : M S A := fun s => (c, s).

Definition gets {S A} (f : S -> A) : M S A := fun s => (Normal (f s), s).
Definition modify {S} (f : S -> S) : M S unit := fun s => (Normal tt, f s).

(** ** Data model *)

Inductive Role : Type := user | assistant.

Record Usage : Type := { input_tokens : N; output_tokens : N }.

(** A [Date] object, as far as [executeTool] reads it. [toLocaleString]
    is the [en-US] rendering in a time zone the host accepts. *)
Record Date : Type := {
  toISOString : string;
  toUTCString : string;
  getTime : Z;
  toLocaleString : string -> string
}.

Section Model.
Context {number : Type}.
Local Abbreviation value := (value number).

Record ToolUseBlock : Type := { id : string; name : string; input : value }.

(** A content block; [block_type] is its [type] field. *)
Inductive Block : Type :=
| Text (text : string)
| ToolUse (toolUse : ToolUseBlock)
| ToolResult (tool_use_id : string) (content : string).

Definition block_type (b : Block) : string :=
  match b with
  | Text _ => "text"
  | ToolUse _ => "tool_use"
  | ToolResult _ _ => "tool_result"
  end.

(** The [content] of a message: the request's [message] as it came, or a
    list of blocks. *)
Inductive TurnContent : Type :=
| Plain (message : value)
| Blocks (blocks : list Block).

Record Turn : Type := { role : Role; content : TurnContent }.

Record ModelResponse : Type := {
  response_content : list Block;
  stop_reason : string;
  usage : Usage
}.

(** What [executeTool] returns: the clock reading, with a [note] field
    only after a fallback, or [{ error }]. *)
Inductive ToolOutput : Type :=
| TimeOutput (iso formatted : string) (timezone : value)
    (unix_timestamp : Z) (note : option string)
| ErrorOutput (error : string).

(** Response bodies sent with [res.json]. *)
Inductive Body : Type :=
| ErrorBody (error : string)
| MessageBody (message : string)
| ChatBody (response session_id : string) (usage : Usage) (iterations : nat)
| HistoryBody (session_id : string) (messages : list Turn).

Record Response : Type := { status : nat; body : Body }.

(** [res.json(body)] answers 200; [res.status(n).json(body)] answers [n]. *)
Definition json (b : Body) : Response := {| status := 200; body := b |}.
Definition status_json (n : nat) (b : Body) : Response :=
  {| status := n; body := b |}.

(** The process state: the world outside (clock, remote model) and the
    [messageHistory] map, keyed by session ids, which are strings (a route
    parameter, or the [session_id] field of a request body). *)
Record State (World : Type) : Type := {
  world : World;
  messageHistory : gmap string (list Turn)
}.

End Model.

Arguments Block number : clear implicits.
Arguments ToolUseBlock number : clear implicits.
Arguments TurnContent number : clear implicits.
Arguments Turn number : clear implicits.
Arguments ModelResponse number : clear implicits.
Arguments ToolOutput number : clear implicits.
Arguments Body number : clear implicits.
Arguments Response number : clear implicits.
Arguments State number World : clear implicits.
Arguments world {number World} _.
Arguments messageHistory {number World} _.

(** ** Predicates on transcripts *)

Section Transcripts.
Context {number : Type}.
Local Abbreviation Turn := (Turn number).
Local Abbreviation Block := (Block number).
Local Abbreviation ToolUseBlock := (ToolUseBlock number).

Definition as_tool_use (block : Block) : option ToolUseBlock :=
  match block with
  | ToolUse toolUse => Some toolUse
  | _ => None
  end.

(** [content.filter(block => block.type === 'tool_use')] *)
Definition toolUseBlocks (content : list Block) : list ToolUseBlock :=
  omap as_tool_use content.

Definition usage_le (u u' : Usage) : Prop :=
  (input_tokens u <= input_tokens u')%N /\ (output_tokens u <= output_tokens u')%N.

(** [block] is a tool result carrying the id of [toolUse]. *)
Definition result_for (toolUse : ToolUseBlock) (block : Block) : bool :=
  match block with
  | ToolResult tool_use_id _ => String.eqb tool_use_id (id toolUse)
  | _ => false
  end.

(** [blocks] is exactly one tool result per tool use, in the same order. *)
Fixpoint results_for (toolUses : list ToolUseBlock) (blocks : list Block) : bool :=
  match toolUses, blocks with
  | [], [] => true
  | toolUse :: toolUses, block :: blocks =>
      result_for toolUse block && results_for toolUses blocks
  | _, _ => false
  end.

(** [turn] is a user turn made of the results for [toolUses]. *)
Definition answers (toolUses : list ToolUseBlock) (turn : Turn) : bool :=
  match role turn, content turn with
  | user, Blocks blocks => results_for toolUses blocks
  | _, _ => false
  end.

(** The tool-use blocks of an assistant turn. *)
Definition turn_tool_uses (turn : Turn) : list ToolUseBlock :=
  match role turn, content turn with
  | assistant, Blocks blocks => toolUseBlocks blocks
  | _, _ => []
  end.

(** Every assistant turn with tool-use blocks is directly followed by a
    user turn that answers them. *)
Fixpoint tool_uses_answered (transcript : list Turn) : bool :=
  match transcript with
  | [] => true
  | turn :: rest =>
      match turn_tool_uses turn with
      | [] => true
      | toolUses =>
          match rest with
          | next :: _ => answers toolUses next
          | [] => false
          end
      end && tool_uses_answered rest
  end.

(** [turns] is [n] pairs of an assistant turn with tool-use blocks and the
    user turn that answers them. *)
Fixpoint turn_pairs (n : nat) (turns : list Turn) : bool :=
  match n, turns with
  | O, [] => true
  | S n, call :: reply :: rest =>
      match role call, turn_tool_uses call with
      | assistant, (_ :: _) as toolUses => answers toolUses reply
      | _, _ => false
      end && turn_pairs n rest
  | _, _ => false
  end.

(** No block of [blocks] is a text block. *)
Definition no_text (blocks : list Block) : Prop :=
  Forall (fun block => block_type block <> "text") blocks.

(** The test of line 112: the response stopped to use tools and carries at
    least one tool-use block. *)
Definition wants_tools (response : ModelResponse number) : bool :=
  String.eqb (stop_reason response) "tool_use"
  && (0 <? length (toolUseBlocks (response_content response)))%nat.

Definition assistant_turn (response : ModelResponse number) : Turn :=
  {| role := assistant; content := Blocks (response_content response) |}.

Definition user_turn (message : value number) : Turn :=
  {| role := user; content := Plain message |}.

Definition results_turn (toolResults : list Block) : Turn :=
  {| role := user; content := Blocks toolResults |}.

End Transcripts.

(** ** The service *)

Section Service.
Context {number : Type}.
Variable number_falsy : number -> bool.
Variable number_toString : number -> string.
Local Abbreviation value := (value number).
Local Abbreviation Turn := (Turn number).
Local Abbreviation Block := (Block number).
Local Abbreviation ToolUseBlock := (ToolUseBlock number).
Local Abbreviation ModelResponse := (ModelResponse number).
Local Abbreviation ToolOutput := (ToolOutput number).
Local Abbreviation Response := (Response number).

(** [JSON.stringify] on a tool's output. *)
Variable JSON_stringify : ToolOutput -> string.

(** The world outside the process: [new_Date] reads the clock and
    [create] is [anthropic.messages.create] called with the transcript
    (model, system prompt and tool list are constants of the program); either
    may answer differently each time, so both advance the world. *)
Variable World : Type.
Variable new_Date : World -> Date * World.
Variable create : World -> list Turn -> completion ModelResponse * World.

(** The time zone names [Intl] accepts on this host. *)
Variable valid_timezone : string -> bool.

Local Abbreviation State := (State number World).
Local Abbreviation M := (M State).

Definition new_Date_M : M Date := fun s =>
  let (d, w) := new_Date (world s) in
  (Normal d, {| world := w; messageHistory := messageHistory s |}).

Definition messages_create (messages : list Turn) : M ModelResponse := fun s =>
  let (r, w) := create (world s) messages in
  (r, {| world := w; messageHistory := messageHistory s |}).

(** [now.toLocaleString('en-US', { timeZone: timezone })]: the option is
    converted to a string, which may throw, and a name the host does not
    know throws a [RangeError]. *)
Definition toLocaleString_en_US (now : Date) (timezone : value) : completion string :=
  match ToString number_toString timezone with
  | Throw e => Throw e
  | Normal tz =>
      if valid_timezone tz then Normal (toLocaleString now tz)
      else Throw (RangeError ("Invalid time zone specified: " +:+ tz))
  end.

(** [executeTool(toolName, toolInput)], lines 30-56. *)
Definition executeTool (toolName : string) (toolInput : value) : M ToolOutput :=
  if String.eqb toolName "get_current_time" then
    now ← new_Date_M;
    tz ← lift (get_property toolInput "timezone");
    let timezone := js_or number_falsy tz (Str "UTC") in
    try_catch
      (formatted ← lift (toLocaleString_en_US now timezone);
       mret (TimeOutput (toISOString now) formatted timezone
               (getTime now / 1000)%Z None))
      (fun e =>
         text ← lift (ToString number_toString timezone);
         mret (TimeOutput (toISOString now) (toUTCString now) (Str "UTC")
                 (getTime now / 1000)%Z
                 (Some ("Invalid timezone " +:+ dquote +:+ text
                          +:+ dquote +:+ ", defaulted to UTC"))))
  else
    mret (ErrorOutput ("Unknown tool: " +:+ toolName)).

(** [tool_returns toolName toolInput]: the calls that do not throw.  Only
    the time tool reads its input: reading [timezone] throws on [undefined]
    and [null] (line 34), and a time zone that cannot be converted to a string
    throws at line 36 and again, outside the [try], at line 49. *)
Definition tool_returns (toolName : string) (toolInput : value) : bool :=
  if String.eqb toolName "get_current_time" then
    match get_property toolInput "timezone" with
    | Throw _ => false
    | Normal tz =>
        match ToString number_toString (js_or number_falsy tz (Str "UTC")) with
        | Throw _ => false
        | Normal _ => true
        end
    end
  else true.

(** [tool_ok toolUse]: the tool use is one on which [executeTool]
    returns. *)
Definition tool_ok (toolUse : ToolUseBlock) : Prop :=
  tool_returns (name toolUse) (input toolUse) = true.

(** *** The [messageHistory] map

    [messages] in the [POST] handler is the very array stored in the map
    under [session_id]: a [push] through it changes the map's entry, and
    what the map holds at any moment is what a later request reads. *)

Definition with_history (f : gmap string (list Turn) -> gmap string (list Turn))
    (s : State) : State :=
  {| world := world s; messageHistory := f (messageHistory s) |}.

(** [messageHistory.has(session_id)] *)
Definition history_has (session_id : string) : M bool :=
  gets (fun s => match messageHistory s !! session_id with
                 | Some _ => true
                 | None => false
                 end).

(** [messageHistory.set(session_id, [])] *)
Definition history_set_empty (session_id : string) : M unit :=
  modify (with_history (insert session_id [])).

(** [messageHistory.delete(session_id)] *)
Definition history_delete (session_id : string) : M unit :=
  modify (with_history (delete session_id)).

(** The present contents of the array [messageHistory.get(session_id)]. *)
Definition messages_of (session_id : string) (s : State) : list Turn :=
  default [] (messageHistory s !! session_id).

(** [messages.push(turn)] *)
Definition push (session_id : string) (turn : Turn) : M unit :=
  modify (with_history (alter (fun messages => (messages ++ [turn])%list) session_id)).

(** *** The agent loop *)

Definition maxIterations : nat := 10.

Definition zero_usage : Usage := {| input_tokens := 0%N; output_tokens := 0%N |}.

(** [totalUsage.input_tokens += ...; totalUsage.output_tokens += ...] *)
Definition add_usage (totalUsage u : Usage) : Usage :=
  {| input_tokens := (input_tokens totalUsage + input_tokens u)%N;
     output_tokens := (output_tokens totalUsage + output_tokens u)%N |}.

(** The callback of [toolUseBlocks.map]: run the tool and wrap what it
    returns (the [console.log] line is not modelled). *)
Definition run_tool (toolUse : ToolUseBlock) : M Block :=
  result ← executeTool (name toolUse) (input toolUse);
  mret (ToolResult (id toolUse) (JSON_stringify result)).

(** [tools_run toolUses s toolResults s']: all the tools return when run one
    after the other from state [s]; [toolResults] are their outputs, each
    serialized and put under the id of its tool use, and [s'] is the state
    after the last. *)
Inductive tools_run : list ToolUseBlock -> State -> list Block -> State -> Prop :=
| tools_run_nil s : tools_run [] s [] s
| tools_run_cons toolUse toolUses s out s1 toolResults s2 :
    executeTool (name toolUse) (input toolUse) s = (Normal out, s1) ->
    tools_run toolUses s1 toolResults s2 ->
    tools_run (toolUse :: toolUses) s
      (ToolResult (id toolUse) (JSON_stringify out) :: toolResults) s2.

(** [content.find(block => block.type === 'text')], then [.text] or [''] *)
Definition responseText (content : list Block) : string :=
  match List.find (fun block => String.eqb (block_type block) "text") content with
  | Some (Text text) => text
  | _ => ""
  end.

(** How one pass through the loop body ends: it falls through to the next
    test of the loop with the updated variables, or it returns a response
    from the handler. *)
Inductive LoopStep : Type :=
| Continue (totalUsage : Usage) (iterations : nat)
| Return (response : Response).

(** The body of the [while] loop, lines 95-145. *)
Definition loop_body (session_id : string) (totalUsage : Usage)
    (iterations : nat) : M LoopStep :=
  let iterations := S iterations in
  messages ← gets (messages_of session_id);
  response ← messages_create messages;
  let totalUsage := add_usage totalUsage (usage response) in
  let toolUses := toolUseBlocks (response_content response) in
  if String.eqb (stop_reason response) "tool_use" && (0 <? length toolUses)%nat then
    push session_id {| role := assistant;
                       content := Blocks (response_content response) |};;
    toolResults ← mapM run_tool toolUses;
    push session_id {| role := user; content := Blocks toolResults |};;
    mret (Continue totalUsage iterations)
  else
    push session_id {| role := assistant;
                       content := Blocks (response_content response) |};;
    mret (Return (json (ChatBody (responseText (response_content response))
                          session_id totalUsage iterations))).

(** The [while (iterations < maxIterations)] loop, lines 94-146, with the
    statement after it, line 149.  [remaining] is
    [maxIterations - iterations]: the loop test holds exactly when it is not
    zero. *)
Fixpoint agent_loop (remaining : nat) (session_id : string)
    (totalUsage : Usage) (iterations : nat) : M Response :=
  match remaining with
  | O =>
      mret (status_json 500 (ErrorBody "Agent loop exceeded maximum iterations"))
  | S remaining =>
      step ← loop_body session_id totalUsage iterations;
      match step with
      | Continue totalUsage iterations =>
          agent_loop remaining session_id totalUsage iterations
      | Return response => mret response
      end
  end.

(** Lines 81-83: create the session's transcript on first use. *)
Definition get_or_create (session_id : string) : M unit :=
  known ← history_has session_id;
  if known : bool then mret tt else history_set_empty session_id.

(** *** The handlers *)

(** [POST /chat], lines 72-154; [message] and [session_id] are the two
    fields read from [req.body], [None] for an absent [session_id]. *)
Definition post_chat (message : value) (session_id : option string) : M Response :=
  try_catch
    (let session_id := default "default" session_id in
     if negb (truthy number_falsy message) then
       mret (status_json 400 (ErrorBody "Message is required"))
     else
       get_or_create session_id;;
       push session_id {| role := user; content := Plain message |};;
       agent_loop maxIterations session_id zero_usage 0)
    (fun error =>
       mret (status_json 500 (ErrorBody "Failed to get response from LLM"))).

(** [DELETE /chat/:session_id], lines 157-165. *)
Definition delete_chat (session_id : string) : M Response :=
  known ← history_has session_id;
  if known : bool then
    history_delete session_id;;
    mret (json (MessageBody ("Session " +:+ session_id +:+ " cleared")))
  else
    mret (status_json 404 (ErrorBody "Session not found")).

(** [GET /chat/:session_id], lines 168-178. *)
Definition get_chat (session_id : string) : M Response :=
  known ← history_has session_id;
  if known : bool then
    messages ← gets (messages_of session_id);
    mret (json (HistoryBody session_id messages))
  else
    mret (status_json 404 (ErrorBody "Session not found")).

(** [req.body] as the handler reads it: [undefined] when nothing was parsed
    ([None] below), or the fields [message] and [session_id]. *)
Record RequestBody : Type := {
  body_message : value;
  body_session_id : option string
}.

(** [POST /chat] from [req.body] on: the destructuring of line 74 sits
    inside the [try] and throws a [TypeError] on an [undefined] body. *)
Definition chat_request (body : option RequestBody) : M Response :=
  try_catch
    (fields ← lift (match body with
                    | Some fields => Normal fields
                    | None =>
                        Throw (TypeError
                                 "Cannot destructure property 'message' of 'req.body' as it is undefined.")
                    end);
     let message := body_message fields in
     let session_id := default "default" (body_session_id fields) in
     if negb (truthy number_falsy message) then
       mret (status_json 400 (ErrorBody "Message is required"))
     else
       get_or_create session_id;;
       push session_id {| role := user; content := Plain message |};;
       agent_loop maxIterations session_id zero_usage 0)
    (fun error =>
       mret (status_json 500 (ErrorBody "Failed to get response from LLM"))).

(** Appending turns to a session's transcript as the [POST] handler does:
    the transcript is created on first use (lines 81-83), then each turn is
    pushed onto it in order. *)
Definition append_turns (session_id : string) (turns : list Turn) : M unit :=
  get_or_create session_id;;
  mapM (push session_id) turns;;
  mret tt.

(** *** Runs of the loop

    [tool_iterations session_id k] relates the loop variables and the state
    before and after [k] passes through the body that all fell through to the
    next test (the tool branch). *)
Inductive tool_iterations (session_id : string) :
    nat -> Usage -> nat -> State -> Usage -> nat -> State -> Prop :=
| tool_iterations_O totalUsage iterations s :
    tool_iterations session_id 0 totalUsage iterations s totalUsage iterations s
| tool_iterations_S k tu it s tu1 it1 s1 tu2 it2 s2 :
    loop_body session_id tu it s = (Normal (Continue tu1 it1), s1) ->
    tool_iterations session_id k tu1 it1 s1 tu2 it2 s2 ->
    tool_iterations session_id (S k) tu it s tu2 it2 s2.

(** [tool_passes session_id s responses s']: from state [s] the model is
    called [length responses] times in a row on the session's transcript as it
    then is, answers with [responses] in this order, each of them asking for
    tools that all return, and [s'] is the state after the results of the
    last are pushed. *)
Inductive tool_passes (session_id : string) :
    State -> list ModelResponse -> State -> Prop :=
| tool_passes_nil s : tool_passes session_id s [] s
| tool_passes_cons s response w toolResults s1 responses s' :
    create (world s) (messages_of session_id s) = (Normal response, w) ->
    wants_tools response = true ->
    tools_run (toolUseBlocks (response_content response))
      {| world := w;
         messageHistory :=
           alter (fun messages => messages ++ [assistant_turn response])%list
             session_id (messageHistory s) |}
      toolResults s1 ->
    tool_passes session_id
      (with_history
         (alter (fun messages => messages ++ [results_turn toolResults])%list
            session_id) s1)
      responses s' ->
    tool_passes session_id s (response :: responses) s'.

(** The state in which the loop of [POST /chat] starts: the transcript
    exists and ends with the new user message. *)
Definition loop_start (message : value) (session_id : string) (s : State) : State :=
  snd ((get_or_create session_id;;
        push session_id {| role := user; content := Plain message |}) s).

(** [inputs_present]: every tool use the model sends is one on which
    [executeTool] returns. *)
Definition inputs_present : Prop :=
  forall w messages response w',
    create w messages = (Normal response, w') ->
    Forall tool_ok (toolUseBlocks (response_content response)).

(** [tool_uses_stop_for_tools]: the model sends tool-use blocks only in a
    response whose stop reason is [tool_use]. *)
Definition tool_uses_stop_for_tools : Prop :=
  forall w messages response w',
    create w messages = (Normal response, w') ->
    wants_tools response = false ->
    toolUseBlocks (response_content response) = [].

(** [always_wants_tools]: on every call the model answers with stop reason
    [tool_use] and at least one tool-use block. *)
Definition always_wants_tools : Prop :=
  forall w messages,
    exists response w',
      create w messages = (Normal response, w')
      /\ stop_reason response = "tool_use"
      /\ toolUseBlocks (response_content response) <> [].

End Service.

Arguments RequestBody number : clear implicits.

(** ** The tool declarations *)

Record PropertySchema : Type := {
  property_type : string;
  property_description : string
}.

Record InputSchema : Type := {
  schema_type : string;
  schema_properties : list (string * PropertySchema);
  required : list string
}.

Record ToolSpec : Type := {
  tool_name : string;
  description : string;
  input_schema : InputSchema
}.

(** [tools], lines 12-27: the declarations sent to the model on every call. *)
Definition tools : list ToolSpec :=
  [ {| tool_name := "get_current_time";
       description :=
         "Get the current date and time. Returns the current timestamp in ISO format along with a human-readable format.";
       input_schema :=
         {| schema_type := "object";
            schema_properties :=
              [("timezone",
                {| property_type := "string";
                   property_description :=
                     "Optional timezone (e.g., " +:+ dquote +:+ "America/New_York"
                     +:+ dquote +:+ ", " +:+ dquote +:+ "Europe/London" +:+ dquote
                     +:+ "). Defaults to UTC if not specified." |})];
            required := [] |} |} ].

(** ** Whole requests *)

Section Requests.
Context {number : Type}.

(** The totals after adding the usage of [responses] one by one to zero, as
    lines 90 and 106-107 do. *)
Definition sum_usage (responses : list (ModelResponse number)) : Usage :=
  foldl (fun totalUsage response => add_usage totalUsage (usage response))
    zero_usage responses.

(** The assistant turns of [turns], in order. *)
Definition assistant_turns (turns : list (Turn number)) : list (Turn number) :=
  List.filter (fun turn => match role turn with
                           | assistant => true
                           | user => false
                           end) turns.

(** The roles of [turns] alternate, beginning with [expected]. *)
Fixpoint alternates (expected : Role) (turns : list (Turn number)) : bool :=
  match turns with
  | [] => true
  | turn :: rest =>
      match expected, role turn with
      | user, user => alternates assistant rest
      | assistant, assistant => alternates user rest
      | _, _ => false
      end
  end.

End Requests.

(** ** A sample host

    A concrete world on which the handlers can be run: numbers are
    integers, the clock is stopped at noon on 1 January 2025, three time zone
    names are known, and the remote model answers from a script, the [n]-th
    call getting the [n]-th entry.  The world is the number of calls made to
    the model so far. *)

Module Sample.

Definition number_falsy (n : Z) : bool := Z.eqb n 0.

Definition number_toString (n : Z) : string := pretty n.

Definition quote (s : string) : string := dquote +:+ s +:+ dquote.

(** A serializer for the tool outputs of the examples, whose strings need
    no escaping. *)
Definition JSON_stringify (out : ToolOutput Z) : string :=
  match out with
  | ErrorOutput error => "{" +:+ quote "error" +:+ ":" +:+ quote error +:+ "}"
  | TimeOutput iso formatted timezone unix_timestamp note =>
      "{" +:+ quote "iso" +:+ ":" +:+ quote iso
      +:+ "," +:+ quote "formatted" +:+ ":" +:+ quote formatted
      +:+ "," +:+ quote "timezone" +:+ ":"
      +:+ match timezone with
          | Str zone => quote zone
          | _ => "null"
          end
      +:+ "," +:+ quote "unix_timestamp" +:+ ":" +:+ pretty unix_timestamp
      +:+ match note with
          | Some text => "," +:+ quote "note" +:+ ":" +:+ quote text
          | None => ""
          end
      +:+ "}"
  end.

Definition valid_timezone (tz : string) : bool :=
  existsb (String.eqb tz) ["UTC"; "America/New_York"; "Europe/London"].

Definition noon : Date := {|
  toISOString := "2025-01-01T12:00:00.000Z";
  toUTCString := "Wed, 01 Jan 2025 12:00:00 GMT";
  getTime := 1735732800000;
  toLocaleString := fun tz =>
    if String.eqb tz "America/New_York" then "1/1/2025, 7:00:00 AM"
    else "1/1/2025, 12:00:00 PM"
|}.

Definition new_Date (w : nat) : Date * nat := (noon, w).

Definition scripted (script : list (completion (ModelResponse Z)))
    (w : nat) (messages : list (Turn Z)) : completion (ModelResponse Z) * nat :=
  (nth w script (Throw (APIError "Connection error.")), S w).

Definition tokens (i o : N) : Usage := {| input_tokens := i; output_tokens := o |}.

(** A response that asks for the time tool with input [toolInput]. *)
Definition asks_time (toolInput : value Z) : ModelResponse Z := {|
  response_content :=
    [Text "Let me check."; 
     ToolUse {| id := "t1"; name := "get_current_time"; input := toolInput |}];
  stop_reason := "tool_use";
  usage := tokens 30 12
|}.

(** A response cut off by the token limit after a tool-use block. *)
Definition cut_off : ModelResponse Z := {|
  response_content :=
    [ToolUse {| id := "t1"; name := "get_current_time"; input := Obj [] |}];
  stop_reason := "max_tokens";
  usage := tokens 30 1024
|}.

Definition says (text : string) : ModelResponse Z := {|
  response_content := [Text text];
  stop_reason := "end_turn";
  usage := tokens 20 7
|}.

(** A model that asks for the time tool, with input [toolInput], on every
    call. *)
Definition always_asks (toolInput : value Z) (w : nat) (messages : list (Turn Z))
    : completion (ModelResponse Z) * nat :=
  (Normal (asks_time toolInput), S w).

(** The process just started: no call made, no session. *)
Definition s0 : State Z nat := {| world := 0%nat; messageHistory := ∅ |}.

Definition executeTool := executeTool number_falsy number_toString nat new_Date valid_timezone.

Definition post_chat_with create :=
  post_chat number_falsy number_toString JSON_stringify nat new_Date create
    valid_timezone.

Definition post_chat (script : list (completion (ModelResponse Z))) :=
  post_chat_with (scripted script).

Definition loop_body_with create :=
  loop_body number_falsy number_toString JSON_stringify nat new_Date create
    valid_timezone.

Definition tool_iterations_with create :=
  tool_iterations number_falsy number_toString JSON_stringify nat new_Date create
    valid_timezone.

Definition tools_run :=
  tools_run number_falsy number_toString JSON_stringify nat new_Date valid_timezone.

Definition tool_passes_with create :=
  tool_passes number_falsy number_toString JSON_stringify nat new_Date create
    valid_timezone.

Definition chat_request (script : list (completion (ModelResponse Z))) :=
  chat_request number_falsy number_toString JSON_stringify nat new_Date
    (scripted script) valid_timezone.

Definition history (s : State Z nat) (session_id : string) : list (Turn Z) :=
  messages_of nat session_id s.

(** The state in which the loop of a first request "What time is it?" to
    the default session starts. *)
Definition asked : State Z nat := loop_start nat (Str "What time is it?") "default" s0.

(** The state after one pass of that request through the tool branch. *)
Definition told : State Z nat :=
  snd (loop_body_with (scripted [Normal (asks_time (Obj []))]) "default"
         zero_usage 0 asked).

End Sample.

(** ** Properties *)

Section Properties.
Context {number : Type}.
Variable number_falsy : number -> bool.
Variable number_toString : number -> string.
Variable JSON_stringify : ToolOutput number -> string.
Variable World : Type.
Variable new_Date : World -> Date * World.
Variable create :
  World -> list (Turn number) -> completion (ModelResponse number) * World.
Variable valid_timezone : string -> bool.

Local Abbreviation value := (value number).
Local Abbreviation Turn := (Turn number).
Local Abbreviation Block := (Block number).
Local Abbreviation ToolUseBlock := (ToolUseBlock number).
Local Abbreviation ModelResponse := (ModelResponse number).
Local Abbreviation State := (State number World).
Local Abbreviation truthy := (truthy number_falsy).
Local Abbreviation js_or := (js_or number_falsy).
Local Abbreviation ToString := (ToString number_toString).
Local Abbreviation executeTool :=
  (executeTool number_falsy number_toString World new_Date valid_timezone).
Local Abbreviation run_tool :=
  (run_tool number_falsy number_toString JSON_stringify World new_Date valid_timezone).
Local Abbreviation loop_body :=
  (loop_body number_falsy number_toString JSON_stringify World new_Date create
     valid_timezone).
Local Abbreviation agent_loop :=
  (agent_loop number_falsy number_toString JSON_stringify World new_Date create
     valid_timezone).
Local Abbreviation post_chat :=
  (post_chat number_falsy number_toString JSON_stringify World new_Date create
     valid_timezone).
Local Abbreviation tool_returns := (tool_returns number_falsy number_toString).
Local Abbreviation tool_ok := (tool_ok number_falsy number_toString).
Local Abbreviation tools_run :=
  (tools_run number_falsy number_toString JSON_stringify World new_Date
     valid_timezone).
Local Abbreviation tool_passes :=
  (tool_passes number_falsy number_toString JSON_stringify World new_Date create
     valid_timezone).
Local Abbreviation chat_request :=
  (chat_request number_falsy number_toString JSON_stringify World new_Date create
     valid_timezone).
Local Abbreviation inputs_present :=
  (inputs_present number_falsy number_toString World create).
Local Abbreviation tool_uses_stop_for_tools := (tool_uses_stop_for_tools World create).
Local Abbreviation always_wants_tools := (always_wants_tools World create).
Local Abbreviation tool_iterations :=
  (tool_iterations number_falsy number_toString JSON_stringify World new_Date
     create valid_timezone).
Local Abbreviation messages_of := (messages_of World).
Local Abbreviation loop_start := (loop_start World).
Local Abbreviation get_chat := (get_chat World).
Local Abbreviation delete_chat := (delete_chat World).
Local Abbreviation append_turns := (append_turns World).

Local Arguments mapM : simpl never.

(** Unfold the monad's operations in the goal. *)
Ltac run :=
  unfold mbind, M_bind, mret, M_ret, try_catch, lift, gets,
    modify, new_Date_M, messages_create; simpl.

Lemma bind_unfold {A B} (m : M State A) (f : A -> M State B) (s : State) :
  (m ≫= f) s
  = match m s with
    | (Normal a, s') => f a s'
    | (Throw e, s') => (Throw e, s')
    end.
Proof. reflexivity. Qed.

(** [toolUseBlocks] keeps the blocks that [filter] on the type keeps, in
    their order. *)
Lemma toolUseBlocks_filter (content : list Block) :
  map ToolUse (toolUseBlocks content)
  = filter (fun block => block_type block = "tool_use") content.
Proof.
  induction content as [|block content IH]; [done|].
  destruct block; simpl; rewrite ?filter_cons; simpl;
    try (rewrite decide_False by discriminate); try rewrite decide_True by done;
    by rewrite <- ?IH.
Qed.

(** *** [executeTool] *)

Lemma get_property_not_nullish (v : value) key :
  not_nullish v = true -> exists p, get_property v key = Normal p.
Proof. destruct v; simpl; intros H; try discriminate; eauto. Qed.

Lemma executeTool_unknown toolName (toolInput : value) (s : State) :
  toolName <> "get_current_time" ->
  executeTool toolName toolInput s
  = (Normal (ErrorOutput ("Unknown tool: " +:+ toolName)), s).
Proof.
  intros Hne. unfold executeTool.
  destruct (String.eqb_spec toolName "get_current_time") as [->|_]; [done|].
  reflexivity.
Qed.

(** The time tool on an input whose [timezone] can be read: it returns
    when the time zone converts to a string, with a note when the host does
    not know the zone, and throws what the conversion throws. *)
Lemma executeTool_time (toolInput tz : value) (s : State) now w :
  get_property toolInput "timezone" = Normal tz ->
  new_Date (world s) = (now, w) ->
  executeTool "get_current_time" toolInput s
  = (match ToString (js_or tz (Str "UTC")) with
     | Throw e => Throw e
     | Normal zone =>
         Normal
           (if valid_timezone zone then
              TimeOutput (toISOString now) (toLocaleString now zone)
                (js_or tz (Str "UTC")) (getTime now / 1000)%Z None
            else
              TimeOutput (toISOString now) (toUTCString now) (Str "UTC")
                (getTime now / 1000)%Z
                (Some ("Invalid timezone " +:+ dquote +:+ zone
                         +:+ dquote +:+ ", defaulted to UTC")))
     end,
     {| world := w; messageHistory := messageHistory s |}).
Proof.
  intros Hget Hnow. unfold executeTool. simpl. run.
  rewrite Hnow, Hget. unfold toLocaleString_en_US.
  destruct (ToString (js_or tz (Str "UTC"))) as [zone|e] eqn:Hzone; simpl.
  - destruct (valid_timezone zone); reflexivity.
  - reflexivity.
Qed.

(** The time tool on an input whose [timezone] cannot be read. *)
Lemma executeTool_time_unreadable (toolInput : value) (s : State) e now w :
  get_property toolInput "timezone" = Throw e ->
  new_Date (world s) = (now, w) ->
  executeTool "get_current_time" toolInput s
  = (Throw e, {| world := w; messageHistory := messageHistory s |}).
Proof.
  intros Hget Hnow. unfold executeTool. simpl. run. by rewrite Hnow, Hget.
Qed.

Lemma executeTool_returns toolName (toolInput : value) (s : State) :
  tool_returns toolName toolInput = true ->
  exists out s',
    executeTool toolName toolInput s = (Normal out, s')
    /\ messageHistory s' = messageHistory s.
Proof.
  unfold tool_returns. intros Hok.
  destruct (String.eqb_spec toolName "get_current_time") as [->|Hne].
  - destruct (get_property toolInput "timezone") as [tz|e] eqn:Htz; [|discriminate].
    destruct (new_Date (world s)) as [now w] eqn:Hnow.
    rewrite (executeTool_time _ _ _ _ _ Htz Hnow).
    destruct (ToString (js_or tz (Str "UTC"))); [|discriminate].
    by eexists _, _.
  - eexists _, _. split; [by apply executeTool_unknown|reflexivity].
Qed.

Lemma executeTool_throws toolName (toolInput : value) (s : State) :
  tool_returns toolName toolInput = false ->
  exists e s', executeTool toolName toolInput s = (Throw e, s').
Proof.
  unfold tool_returns. intros Hbad.
  destruct (String.eqb_spec toolName "get_current_time") as [->|Hne];
    [|discriminate].
  destruct (new_Date (world s)) as [now w] eqn:Hnow.
  destruct (get_property toolInput "timezone") as [tz|e] eqn:Htz.
  - rewrite (executeTool_time _ _ _ _ _ Htz Hnow).
    destruct (ToString (js_or tz (Str "UTC"))); [discriminate|].
    by eexists _, _.
  - rewrite (executeTool_time_unreadable _ _ _ _ _ Htz Hnow). by eexists _, _.
Qed.

(** Whatever [executeTool] does, it leaves the session map alone. *)
Lemma executeTool_history toolName (toolInput : value) (s : State) :
  messageHistory (snd (executeTool toolName toolInput s)) = messageHistory s.
Proof.
  destruct (String.eqb_spec toolName "get_current_time") as [->|Hne].
  - destruct (new_Date (world s)) as [now w] eqn:Hnow.
    destruct (get_property toolInput "timezone") as [tz|e] eqn:Htz.
    + by rewrite (executeTool_time _ _ _ _ _ Htz Hnow).
    + by rewrite (executeTool_time_unreadable _ _ _ _ _ Htz Hnow).
  - by rewrite executeTool_unknown.
Qed.

(** *** Running the tools of one response *)

Lemma run_tool_unfold (toolUse : ToolUseBlock) (s : State) :
  run_tool toolUse s
  = match executeTool (name toolUse) (input toolUse) s with
    | (Normal out, s') =>
        (Normal (ToolResult (id toolUse) (JSON_stringify out)), s')
    | (Throw e, s') => (Throw e, s')
    end.
Proof. reflexivity. Qed.

Lemma run_tool_returns (toolUse : ToolUseBlock) (s : State) :
  tool_ok toolUse ->
  exists out s',
    run_tool toolUse s
    = (Normal (ToolResult (id toolUse) (JSON_stringify out)), s')
    /\ executeTool (name toolUse) (input toolUse) s = (Normal out, s')
    /\ messageHistory s' = messageHistory s.
Proof.
  intros Hok.
  destruct (executeTool_returns (name toolUse) (input toolUse) s Hok)
    as (out & s' & Hrun & Hs').
  exists out, s'. rewrite run_tool_unfold, Hrun. done.
Qed.

Lemma mapM_cons {A B} (f : A -> M State B) x l (s : State) :
  mapM f (x :: l) s
  = match f x s with
    | (Normal y, s1) =>
        match mapM f l s1 with
        | (Normal k, s2) => (Normal (y :: k), s2)
        | (Throw e, s2) => (Throw e, s2)
        end
    | (Throw e, s1) => (Throw e, s1)
    end.
Proof.
  unfold mapM. run. destruct (f x s) as [[y|e] s1]; [|reflexivity].
  match goal with
  | |- context [let (_, _) := ?rest in _] => destruct rest as [[k|e] s2]
  end; reflexivity.
Qed.

(** The session map is the same after the tools have run, whether they
    all returned or one threw. *)
Lemma run_tools_history (toolUses : list ToolUseBlock) (s : State) :
  messageHistory (snd (mapM run_tool toolUses s)) = messageHistory s.
Proof.
  revert s. induction toolUses as [|toolUse toolUses IH]; intros s; [reflexivity|].
  rewrite mapM_cons, run_tool_unfold.
  pose proof (executeTool_history (name toolUse) (input toolUse) s) as H1.
  destruct (executeTool _ _ s) as [[out|e] s1]; simpl in *; [|done].
  specialize (IH s1).
  destruct (mapM run_tool toolUses s1) as [[k|e] s2]; simpl in *; congruence.
Qed.

(** When the tools all return, the results carry the ids of the tool uses,
    one each, in the same order. *)
Lemma run_tools_results (toolUses : list ToolUseBlock) (s s' : State) results :
  mapM run_tool toolUses s = (Normal results, s') ->
  results_for toolUses results = true.
Proof.
  revert s results.
  induction toolUses as [|toolUse toolUses IH]; intros s results.
  - intros [= <- _]. reflexivity.
  - rewrite mapM_cons, run_tool_unfold.
    destruct (executeTool _ _ s) as [[out|e] s1]; simpl; [|discriminate].
    destruct (mapM run_tool toolUses s1) as [[k|e] s2] eqn:Hrest; simpl;
      [|discriminate].
    intros [= <- <-]. simpl. rewrite String.eqb_refl. simpl. by eapply IH.
Qed.

Lemma run_tools_returns (toolUses : list ToolUseBlock) (s : State) :
  Forall tool_ok toolUses ->
  exists results s', mapM run_tool toolUses s = (Normal results, s').
Proof.
  intros Hok. revert s.
  induction Hok as [|toolUse toolUses Hhd _ IH]; intros s.
  - by eexists _, _.
  - destruct (run_tool_returns toolUse s Hhd) as (out & s1 & Hrun & _ & _).
    destruct (IH s1) as (k & s2 & Hrest).
    eexists _, _. by rewrite mapM_cons, Hrun, Hrest.
Qed.

(** *** The session map *)

Lemma get_or_create_spec session_id (s : State) :
  get_or_create World session_id s
  = (Normal tt,
     match messageHistory s !! session_id with
     | Some _ => s
     | None => with_history World (insert session_id []) s
     end).
Proof.
  unfold get_or_create, history_has, history_set_empty. run.
  by destruct (messageHistory s !! session_id).
Qed.

Lemma loop_start_messages (message : value) session_id (s : State) :
  messageHistory (loop_start message session_id s) !! session_id
  = Some (messages_of session_id s ++ [user_turn message])%list.
Proof.
  unfold loop_start. run. rewrite get_or_create_spec. simpl.
  unfold messages_of.
  destruct (messageHistory s !! session_id) as [messages|] eqn:Hm; simpl.
  - by rewrite lookup_alter_eq, Hm.
  - by rewrite lookup_alter_eq, lookup_insert_eq.
Qed.

Lemma loop_start_world (message : value) session_id (s : State) :
  world (loop_start message session_id s) = world s.
Proof.
  unfold loop_start. run. rewrite get_or_create_spec. simpl.
  by destruct (messageHistory s !! session_id).
Qed.

(** *** One pass through the loop body *)

Lemma loop_body_unfold session_id totalUsage iterations (s : State) :
  loop_body session_id totalUsage iterations s
  = match create (world s) (messages_of session_id s) with
    | (Throw e, w) => (Throw e, {| world := w; messageHistory := messageHistory s |})
    | (Normal response, w) =>
        let s1 : State :=
          {| world := w;
             messageHistory :=
               alter (fun messages => messages ++ [assistant_turn response])%list
                 session_id (messageHistory s) |} in
        if wants_tools response then
          match mapM run_tool (toolUseBlocks (response_content response)) s1 with
          | (Normal toolResults, s2) =>
              (Normal (Continue (add_usage totalUsage (usage response))
                         (S iterations)),
               with_history World
                 (alter (fun messages => messages ++ [results_turn toolResults])%list
                    session_id) s2)
          | (Throw e, s2) => (Throw e, s2)
          end
        else
          (Normal (Return (json (ChatBody
                                   (responseText (response_content response))
                                   session_id
                                   (add_usage totalUsage (usage response))
                                   (S iterations)))),
           s1)
    end.
Proof.
  unfold loop_body, wants_tools, assistant_turn, results_turn, push. run.
  destruct (create (world s) (messages_of session_id s)) as [[response|e] w];
    [|reflexivity].
  simpl. destruct (_ && _); reflexivity.
Qed.

Lemma alter_app_app (session_id : string) (first second : list Turn)
    (history : gmap string (list Turn)) :
  alter (fun messages => messages ++ second)%list session_id
    (alter (fun messages => messages ++ first)%list session_id history)
  = alter (fun messages => messages ++ (first ++ second))%list session_id history.
Proof.
  apply map_eq. intros i. destruct (decide (i = session_id)) as [->|Hne].
  - rewrite !lookup_alter_eq. destruct (history !! session_id); simpl; [|done].
    by rewrite app_assoc.
  - by rewrite !lookup_alter_ne.
Qed.

Lemma alter_app_nil (session_id : string) (history : gmap string (list Turn)) :
  alter (fun messages => messages ++ [])%list session_id history = history.
Proof.
  apply map_eq. intros i. destruct (decide (i = session_id)) as [->|Hne].
  - rewrite lookup_alter_eq. destruct (history !! session_id); simpl; [|done].
    by rewrite app_nil_r.
  - by rewrite lookup_alter_ne.
Qed.

Lemma messages_of_alter_app session_id appended (s s' : State) :
  is_Some (messageHistory s !! session_id) ->
  messageHistory s'
  = alter (fun messages => messages ++ appended)%list session_id (messageHistory s) ->
  messages_of session_id s' = (messages_of session_id s ++ appended)%list
  /\ is_Some (messageHistory s' !! session_id).
Proof.
  intros [messages Hm] Hs'. unfold messages_of.
  rewrite Hs', lookup_alter_eq, Hm. simpl. split; [reflexivity|by eexists].
Qed.

Lemma loop_body_throws session_id totalUsage iterations (s : State) e w :
  create (world s) (messages_of session_id s) = (Throw e, w) ->
  loop_body session_id totalUsage iterations s
  = (Throw e, {| world := w; messageHistory := messageHistory s |}).
Proof. intros H. by rewrite loop_body_unfold, H. Qed.

Lemma loop_body_terminal session_id totalUsage iterations (s : State) response w :
  create (world s) (messages_of session_id s) = (Normal response, w) ->
  wants_tools response = false ->
  loop_body session_id totalUsage iterations s
  = (Normal (Return (json (ChatBody (responseText (response_content response))
                             session_id
                             (add_usage totalUsage (usage response))
                             (S iterations)))),
     {| world := w;
        messageHistory :=
          alter (fun messages => messages ++ [assistant_turn response])%list
            session_id (messageHistory s) |}).
Proof. intros H Hterm. rewrite loop_body_unfold, H. simpl. by rewrite Hterm. Qed.

Lemma loop_body_tools session_id totalUsage iterations (s : State) response w :
  create (world s) (messages_of session_id s) = (Normal response, w) ->
  wants_tools response = true ->
  Forall tool_ok (toolUseBlocks (response_content response)) ->
  exists toolResults s',
    loop_body session_id totalUsage iterations s
    = (Normal (Continue (add_usage totalUsage (usage response)) (S iterations)), s')
    /\ results_for (toolUseBlocks (response_content response)) toolResults = true
    /\ messageHistory s'
       = alter (fun messages =>
                  messages ++ [assistant_turn response; results_turn toolResults])%list
           session_id (messageHistory s).
Proof.
  intros H Hwants Hok. rewrite loop_body_unfold, H. simpl. rewrite Hwants.
  match goal with
  | |- context [mapM ?f ?l ?st] =>
      destruct (run_tools_returns l st Hok) as (toolResults & s2 & Hrun);
      pose proof (run_tools_history l st) as Hhist
  end.
  rewrite Hrun in Hhist |- *. simpl in Hhist.
  exists toolResults, (with_history World
    (alter (fun messages => messages ++ [results_turn toolResults])%list session_id) s2).
  split; [reflexivity|]. split; [by eapply run_tools_results|].
  simpl. rewrite Hhist. apply alter_app_app.
Qed.

(** A pass that falls through to the next test took the tool branch. *)
Lemma loop_body_Continue session_id tu it (s : State) tu1 it1 s1 :
  loop_body session_id tu it s = (Normal (Continue tu1 it1), s1) ->
  exists response w toolResults,
    create (world s) (messages_of session_id s) = (Normal response, w)
    /\ wants_tools response = true
    /\ tu1 = add_usage tu (usage response)
    /\ it1 = S it
    /\ results_for (toolUseBlocks (response_content response)) toolResults = true
    /\ messageHistory s1
       = alter (fun messages =>
                  messages ++ [assistant_turn response; results_turn toolResults])%list
           session_id (messageHistory s).
Proof.
  rewrite loop_body_unfold.
  destruct (create (world s) (messages_of session_id s)) as [[response|e] w];
    [|discriminate].
  simpl. destruct (wants_tools response) eqn:Hwants; [|discriminate].
  match goal with
  | |- context [mapM ?f ?l ?st] =>
      pose proof (run_tools_history l st) as Hhist;
      destruct (mapM f l st) as [[toolResults|e] s2] eqn:Hrun
  end; [|discriminate].
  intros [= <- <- <-]. exists response, w, toolResults.
  split_and!; try done.
  - by eapply run_tools_results.
  - simpl in *. rewrite Hhist. apply alter_app_app.
Qed.

(** *** The loop *)

Lemma agent_loop_unfold remaining session_id tu it (s : State) :
  agent_loop (S remaining) session_id tu it s
  = match loop_body session_id tu it s with
    | (Normal (Continue tu1 it1), s1) => agent_loop remaining session_id tu1 it1 s1
    | (Normal (Return response), s1) => (Normal response, s1)
    | (Throw e, s1) => (Throw e, s1)
    end.
Proof.
  simpl. run. destruct (loop_body session_id tu it s) as [[[tu1 it1|r]|e] s1];
    reflexivity.
Qed.

Lemma agent_loop_skip k remaining session_id tu it (s : State) tu' it' s' :
  tool_iterations session_id k tu it s tu' it' s' ->
  agent_loop (k + remaining) session_id tu it s
  = agent_loop remaining session_id tu' it' s'.
Proof.
  induction 1 as [|k tu it s tu1 it1 s1 tu2 it2 s2 Hbody _ IH]; [reflexivity|].
  change (S k + remaining)%nat with (S (k + remaining)).
  by rewrite agent_loop_unfold, Hbody.
Qed.

Lemma usage_le_add (u v : Usage) : usage_le u (add_usage u v).
Proof. unfold usage_le, add_usage. simpl. lia. Qed.

Lemma usage_le_trans (u v w : Usage) : usage_le u v -> usage_le v w -> usage_le u w.
Proof. unfold usage_le. lia. Qed.

Lemma wants_tools_nonempty (response : ModelResponse) :
  wants_tools response = true ->
  exists toolUse toolUses,
    toolUseBlocks (response_content response) = toolUse :: toolUses.
Proof.
  unfold wants_tools. intros [_ Hlen]%andb_prop.
  destruct (toolUseBlocks (response_content response)); [discriminate|eauto].
Qed.

(** [k] passes through the tool branch count [k] iterations, only add to the
    totals, and append [k] pairs of turns to the session's transcript. *)
Lemma tool_iterations_spec session_id k tu it (s : State) tu' it' s' :
  tool_iterations session_id k tu it s tu' it' s' ->
  it' = (it + k)%nat
  /\ usage_le tu tu'
  /\ exists appended,
      turn_pairs k appended = true
      /\ messageHistory s'
         = alter (fun messages => messages ++ appended)%list session_id
             (messageHistory s).
Proof.
  induction 1 as [tu it s|k tu it s tu1 it1 s1 tu2 it2 s2 Hbody _ IH].
  - split; [lia|]. split; [unfold usage_le; lia|].
    exists []. by rewrite alter_app_nil.
  - destruct (loop_body_Continue _ _ _ _ _ _ _ Hbody)
      as (response & w & toolResults & _ & Hwants & -> & -> & Hres & Hhist).
    destruct IH as (-> & Hle & appended & Hpairs & Hhist2).
    split; [lia|]. split; [eauto using usage_le_trans, usage_le_add|].
    exists (assistant_turn response :: results_turn toolResults :: appended).
    split.
    + destruct (wants_tools_nonempty _ Hwants) as (toolUse & toolUses & Htus).
      simpl. unfold turn_tool_uses. simpl. rewrite Htus, <- Htus.
      unfold answers. simpl. by rewrite Hres, Hpairs.
    + rewrite Hhist2, Hhist. apply alter_app_app.
Qed.

(** [POST /chat] with a message: the loop runs from zero totals in the state
    [loop_start], and an exception becomes the upstream-error response. *)
Lemma post_chat_unfold (message : value) session_id (s : State) :
  truthy message = true ->
  post_chat message session_id s
  = match agent_loop maxIterations (default "default" session_id) zero_usage 0
            (loop_start message (default "default" session_id) s) with
    | (Normal response, s') => (Normal response, s')
    | (Throw e, s') =>
        (Normal (status_json 500 (ErrorBody "Failed to get response from LLM")), s')
    end.
Proof.
  intros Hmsg. unfold post_chat, loop_start, try_catch.
  rewrite Hmsg. change (negb true) with false. cbv iota.
  unfold mbind, M_bind. cbv beta. rewrite !get_or_create_spec. reflexivity.
Qed.

(** Mapping [run_tool] over the tool uses returns exactly when the tools
    run one after the other all return, with those results and that state. *)
Lemma run_tools_run (toolUses : list ToolUseBlock) (s s' : State) toolResults :
  mapM run_tool toolUses s = (Normal toolResults, s')
  <-> tools_run toolUses s toolResults s'.
Proof.
  split.
  - revert s toolResults.
    induction toolUses as [|toolUse toolUses IH]; intros s toolResults.
    + intros [= <- <-]. constructor.
    + rewrite mapM_cons, run_tool_unfold.
      destruct (executeTool _ _ s) as [[out|e] s1] eqn:Hout; simpl; [|discriminate].
      destruct (mapM run_tool toolUses s1) as [[k|e] s2] eqn:Hrest; simpl;
        [|discriminate].
      intros [= <- <-]. econstructor; [done|by apply IH].
  - induction 1 as [s|toolUse toolUses s out s1 toolResults s2 Hout _ IH];
      [done|].
    by rewrite mapM_cons, run_tool_unfold, Hout, IH.
Qed.

(** When mapping over the tool uses returns, each of them was one on which
    [executeTool] returns. *)
Lemma run_tools_ok (toolUses : list ToolUseBlock) (s s' : State) toolResults :
  mapM run_tool toolUses s = (Normal toolResults, s') ->
  Forall tool_ok toolUses.
Proof.
  revert s toolResults.
  induction toolUses as [|toolUse toolUses IH]; intros s toolResults; [done|].
  rewrite mapM_cons, run_tool_unfold.
  destruct (tool_returns (name toolUse) (input toolUse)) eqn:Hok.
  - destruct (executeTool _ _ s) as [[out|e] s1]; simpl; [|discriminate].
    destruct (mapM run_tool toolUses s1) as [[k|e] s2] eqn:Hrest; simpl;
      [|discriminate].
    intros [= <- <-]. constructor; [exact Hok|by eapply IH].
  - destruct (executeTool_throws _ _ s Hok) as (e & s1 & ->). discriminate.
Qed.

(** An object with an own [toString] property is what cannot be converted
    to a string. *)
Lemma ToString_object (props : list (string * value)) :
  (exists e, ToString (Obj props) = Throw e)
  <-> has_own_property "toString" props = true.
Proof.
  simpl. destruct (has_own_property "toString" props); split;
    try done; [by eexists|by intros [e [=]]].
Qed.

(** *** The tool dispatcher *)


(** C5, as amended: when the [timezone] of the input is truthy, can be
    converted to a string, and that string is not a time zone name the host
    knows, the time tool returns, without throwing, the UTC rendering with
    [timezone: "UTC"] and a [note] that quotes the rejected string; when it
    is falsy (absent, [null], [false], [0] or the empty string) the tool takes
    ["UTC"] in its place and returns the reading for UTC with
    [timezone: "UTC"] and no [note]. *)
Theorem executeTool_timezone_fallback (toolInput tz : value) (s : State) now w :
  get_property toolInput "timezone" = Normal tz ->
  new_Date (world s) = (now, w) ->
  (forall zone,
      truthy tz = true ->
      ToString tz = Normal zone ->
      valid_timezone zone = false ->
      executeTool "get_current_time" toolInput s
      = (Normal (TimeOutput (toISOString now) (toUTCString now) (Str "UTC")
                   (getTime now / 1000)%Z
                   (Some ("Invalid timezone " +:+ dquote +:+ zone
                            +:+ dquote +:+ ", defaulted to UTC"))),
         {| world := w; messageHistory := messageHistory s |}))
  /\ (truthy tz = false ->
      valid_timezone "UTC" = true ->
      executeTool "get_current_time" toolInput s
      = (Normal (TimeOutput (toISOString now) (toLocaleString now "UTC")
                   (Str "UTC") (getTime now / 1000)%Z None),
         {| world := w; messageHistory := messageHistory s |})).
Proof.
  intros Hget Hnow. rewrite (executeTool_time _ _ _ _ _ Hget Hnow).
  unfold js_or. split.
  - intros zone Htruthy Hzone Hvalid. by rewrite Htruthy, Hzone, Hvalid.
  - intros Htruthy Hvalid. rewrite Htruthy. simpl. by rewrite Hvalid.
Qed.

(** *** Tool uses and their results in the transcript *)

Lemma tool_uses_answered_app (transcript appended : list Turn) :
  tool_uses_answered transcript = true ->
  tool_uses_answered appended = true ->
  tool_uses_answered (transcript ++ appended) = true.
Proof.
  intros Ht Ha. induction transcript as [|turn rest IH]; [done|].
  simpl in *. apply andb_prop in Ht as [Hturn Hrest].
  rewrite (IH Hrest), andb_true_r.
  destruct (turn_tool_uses turn); [done|].
  destruct rest; [discriminate|done].
Qed.

Lemma tool_uses_answered_user (message : value) :
  tool_uses_answered [user_turn message] = true.
Proof. reflexivity. Qed.

Lemma tool_uses_answered_pair (response : ModelResponse) toolResults :
  results_for (toolUseBlocks (response_content response)) toolResults = true ->
  tool_uses_answered [assistant_turn response; results_turn toolResults] = true.
Proof.
  intros Hres.
  unfold tool_uses_answered, turn_tool_uses, answers, assistant_turn, results_turn.
  cbn [role content].
  destruct (toolUseBlocks (response_content response)); [reflexivity|].
  by rewrite Hres.
Qed.

Lemma tool_uses_answered_plain_reply (response : ModelResponse) :
  toolUseBlocks (response_content response) = [] ->
  tool_uses_answered [assistant_turn response] = true.
Proof.
  intros Hnone. unfold tool_uses_answered, turn_tool_uses, assistant_turn.
  cbn [role content]. by rewrite Hnone.
Qed.

Lemma agent_loop_answered remaining session_id tu it (s : State) :
  tool_uses_stop_for_tools ->
  inputs_present ->
  is_Some (messageHistory s !! session_id) ->
  tool_uses_answered (messages_of session_id s) = true ->
  tool_uses_answered
    (messages_of session_id (snd (agent_loop remaining session_id tu it s))) = true.
Proof.
  intros Hstop Hinputs. revert tu it s.
  induction remaining as [|remaining IH]; intros tu it s Hsome Hinv; [done|].
  rewrite agent_loop_unfold.
  destruct (create (world s) (messages_of session_id s)) as [[response|e] w]
    eqn:Hcreate.
  - pose proof (Hstop _ _ _ _ Hcreate) as Hplain.
    pose proof (Hinputs _ _ _ _ Hcreate) as Hok.
    destruct (wants_tools response) eqn:Hwants.
    + destruct (loop_body_tools session_id tu it s response w Hcreate Hwants Hok)
        as (toolResults & s' & -> & Hres & Hhist).
      destruct (messages_of_alter_app _ _ _ _ Hsome Hhist) as [Hmsgs Hsome'].
      apply IH; [done|]. rewrite Hmsgs.
      auto using tool_uses_answered_app, tool_uses_answered_pair.
    + rewrite (loop_body_terminal _ tu it _ _ _ Hcreate Hwants). simpl.
      match goal with
      | |- context [messages_of _ ?st] =>
          destruct (messages_of_alter_app session_id [assistant_turn response]
                      s st Hsome eq_refl) as [-> _]
      end.
      auto using tool_uses_answered_app, tool_uses_answered_plain_reply.
  - by rewrite (loop_body_throws _ tu it _ _ _ Hcreate).
Qed.

(** *** Requests *)

Lemma loop_start_spec (message : value) session_id (s : State) :
  is_Some (messageHistory (loop_start message session_id s) !! session_id)
  /\ messages_of session_id (loop_start message session_id s)
     = (messages_of session_id s ++ [user_turn message])%list.
Proof.
  pose proof (loop_start_messages message session_id s) as H.
  split; [by eexists|]. unfold messages_of at 1. by rewrite H.
Qed.

(** After [k] passes through the tool branch the request goes on with the
    remaining [maxIterations - k] iterations. *)
Lemma post_chat_skip (message : value) session_id (s : State) k tu it s1 :
  truthy message = true ->
  tool_iterations (default "default" session_id) k zero_usage 0
    (loop_start message (default "default" session_id) s) tu it s1 ->
  (k <= maxIterations)%nat ->
  post_chat message session_id s
  = match agent_loop (maxIterations - k) (default "default" session_id) tu it s1 with
    | (Normal response, s') => (Normal response, s')
    | (Throw e, s') =>
        (Normal (status_json 500 (ErrorBody "Failed to get response from LLM")), s')
    end.
Proof.
  intros Hmsg Hrun Hk. rewrite (post_chat_unfold _ _ _ Hmsg).
  replace maxIterations with (k + (maxIterations - k))%nat at 1 by lia.
  by rewrite (agent_loop_skip _ _ _ _ _ _ _ _ _ Hrun).
Qed.

(** The transcript after [k] passes through the tool branch of a request. *)
Lemma request_transcript (message : value) session_id (s : State) k tu it s1 :
  tool_iterations session_id k zero_usage 0
    (loop_start message session_id s) tu it s1 ->
  it = k
  /\ exists appended,
      turn_pairs k appended = true
      /\ messageHistory s1 !! session_id
         = Some (messages_of session_id s ++ user_turn message :: appended)%list.
Proof.
  intros Hrun.
  destruct (tool_iterations_spec _ _ _ _ _ _ _ _ Hrun)
    as (-> & _ & appended & Hpairs & Hhist).
  split; [done|]. exists appended. split; [done|].
  rewrite Hhist, lookup_alter_eq, loop_start_messages. simpl.
  by rewrite <- app_assoc.
Qed.

Lemma wants_tools_true (response : ModelResponse) :
  stop_reason response = "tool_use" ->
  toolUseBlocks (response_content response) <> [] ->
  wants_tools response = true.
Proof.
  intros Hstop Hsome. unfold wants_tools. rewrite Hstop. simpl.
  by destruct (toolUseBlocks (response_content response)).
Qed.

Lemma always_wants_tools_run session_id k tu it (s : State) :
  always_wants_tools ->
  inputs_present ->
  exists tu' s', tool_iterations session_id k tu it s tu' (it + k)%nat s'.
Proof.
  intros Halways Hinputs. revert tu it s.
  induction k as [|k IH]; intros tu it s.
  - exists tu, s. rewrite Nat.add_0_r. constructor.
  - destruct (Halways (world s) (messages_of session_id s))
      as (response & w & Hcreate & Hstop & Hsome).
    destruct (loop_body_tools session_id tu it s response w Hcreate
                (wants_tools_true _ Hstop Hsome) (Hinputs _ _ _ _ Hcreate))
      as (toolResults & s1 & Hbody & _ & _).
    destruct (IH (add_usage tu (usage response)) (S it) s1) as (tu' & s' & Hrun).
    exists tu', s'. replace (it + S k)%nat with (S it + k)%nat by lia.
    econstructor; eauto.
Qed.



Lemma add_usage_zero (u : Usage) : add_usage zero_usage u = u.
Proof. by destruct u. Qed.

(** The reply is the text of the first text block. *)
Lemma responseText_first (before after : list Block) text :
  no_text before ->
  responseText (before ++ Text text :: after) = text.
Proof.
  unfold responseText. induction 1 as [|block before Hblock _ IH]; [done|].
  simpl. destruct (String.eqb_spec (block_type block) "text"); [done|apply IH].
Qed.

Lemma responseText_none (content : list Block) :
  no_text content -> responseText content = "".
Proof.
  unfold responseText. induction 1 as [|block content Hblock _ IH]; [done|].
  simpl. destruct (String.eqb_spec (block_type block) "text"); [done|apply IH].
Qed.

(** A terminal response in iteration [k + 1] of a request. *)
Lemma post_chat_terminal (message : value) session_id (s : State)
    k tu it s1 response w :
  truthy message = true ->
  tool_iterations (default "default" session_id) k zero_usage 0
    (loop_start message (default "default" session_id) s) tu it s1 ->
  (k < maxIterations)%nat ->
  create (world s1) (messages_of (default "default" session_id) s1)
  = (Normal response, w) ->
  wants_tools response = false ->
  post_chat message session_id s
  = (Normal (json (ChatBody (responseText (response_content response))
                     (default "default" session_id)
                     (add_usage tu (usage response)) (S k))),
     {| world := w;
        messageHistory :=
          alter (fun messages => messages ++ [assistant_turn response])%list
            (default "default" session_id) (messageHistory s1) |}).
Proof.
  intros Hmsg Hrun Hk Hcreate Hterm.
  rewrite (post_chat_skip _ _ _ _ _ _ _ Hmsg Hrun) by lia.
  destruct (request_transcript _ _ _ _ _ _ _ Hrun) as [-> _].
  destruct (maxIterations - k)%nat as [|remaining] eqn:Hrem; [lia|].
  by rewrite agent_loop_unfold, (loop_body_terminal _ _ _ _ _ _ Hcreate Hterm).
Qed.

(** C4: when the first response of a request has stop reason [end_turn] and
    the single text block "Hello", the request answers 200 with reply
    "Hello", the usage of that response and [iterations = 1], after one call
    to the model; the transcript gains the user message and the reply. *)
Theorem hello_in_one_iteration (message : value) session_id (s : State) response w :
  truthy message = true ->
  create (world s)
    (messages_of (default "default" session_id) s ++ [user_turn message])
  = (Normal response, w) ->
  stop_reason response = "end_turn" ->
  response_content response = [Text "Hello"] ->
  exists s',
    post_chat message session_id s
    = (Normal (json (ChatBody "Hello" (default "default" session_id)
                       (usage response) 1)), s')
    /\ world s' = w
    /\ messageHistory s' !! default "default" session_id
       = Some (messages_of (default "default" session_id) s
                 ++ [user_turn message; assistant_turn response])%list.
Proof.
  intros Hmsg Hcreate Hstop Hcontent.
  set (sid := default "default" session_id) in *.
  destruct (loop_start_spec message sid s) as [_ Hmsgs].
  assert (wants_tools response = false) as Hterm.
  { unfold wants_tools. by rewrite Hstop. }
  eexists. split_and!.
  - erewrite (post_chat_terminal message session_id s 0 zero_usage 0 _ response w);
      [|done|constructor|unfold maxIterations; lia| |done].
    + by rewrite add_usage_zero, Hcontent.
    + fold sid. by rewrite loop_start_world, Hmsgs.
  - reflexivity.
  - simpl. fold sid. rewrite lookup_alter_eq, loop_start_messages. simpl.
    by rewrite <- app_assoc.
Qed.

(** C6: on a terminal response (stop reason other than [tool_use], or no
    tool-use block), in whichever iteration of a request it comes, the loop
    appends an assistant turn with the whole content of the response and the
    request answers 200 with the accumulated usage, the iteration count and
    as reply the text of the first text block, or the empty string when the
    content has no text block. *)
Theorem terminal_response_reply (message : value) session_id (s : State)
    k tu it s1 response w :
  truthy message = true ->
  tool_iterations (default "default" session_id) k zero_usage 0
    (loop_start message (default "default" session_id) s) tu it s1 ->
  (k < maxIterations)%nat ->
  create (world s1) (messages_of (default "default" session_id) s1)
  = (Normal response, w) ->
  wants_tools response = false ->
  exists s',
    post_chat message session_id s
    = (Normal (json (ChatBody (responseText (response_content response))
                       (default "default" session_id)
                       (add_usage tu (usage response)) (S k))), s')
    /\ messages_of (default "default" session_id) s'
       = (messages_of (default "default" session_id) s1
            ++ [assistant_turn response])%list
    /\ (forall before text after,
          response_content response = (before ++ Text text :: after)%list ->
          no_text before ->
          responseText (response_content response) = text)
    /\ (no_text (response_content response) ->
        responseText (response_content response) = "").
Proof.
  intros Hmsg Hrun Hk Hcreate Hterm.
  eexists. split_and!.
  - by apply (post_chat_terminal _ _ _ _ _ _ _ _ _ Hmsg Hrun Hk Hcreate Hterm).
  - destruct (request_transcript _ _ _ _ _ _ _ Hrun) as (_ & appended & _ & Hhist).
    match goal with
    | |- messages_of ?sid ?st = _ =>
        by destruct (messages_of_alter_app sid [assistant_turn response] s1 st
                       ltac:(by eexists) eq_refl)
    end.
  - intros before text after -> Hbefore. by apply responseText_first.
  - apply responseText_none.
Qed.

(** *** Usage totals *)

(** A pass through the tool branch, from the call to the pushed results. *)
Lemma loop_body_pass session_id tu it (s : State) response w toolResults s1 :
  create (world s) (messages_of session_id s) = (Normal response, w) ->
  wants_tools response = true ->
  tools_run (toolUseBlocks (response_content response))
    {| world := w;
       messageHistory :=
         alter (fun messages => messages ++ [assistant_turn response])%list
           session_id (messageHistory s) |}
    toolResults s1 ->
  loop_body session_id tu it s
  = (Normal (Continue (add_usage tu (usage response)) (S it)),
     with_history World
       (alter (fun messages => messages ++ [results_turn toolResults])%list
          session_id) s1).
Proof.
  intros Hcreate Hwants Hrun%run_tools_run.
  rewrite loop_body_unfold, Hcreate. simpl. by rewrite Hwants, Hrun.
Qed.

(** A pass that falls through to the next test was such a pass. *)
Lemma loop_body_Continue_pass session_id tu it (s : State) tu1 it1 s' :
  loop_body session_id tu it s = (Normal (Continue tu1 it1), s') ->
  exists response w toolResults s1,
    create (world s) (messages_of session_id s) = (Normal response, w)
    /\ wants_tools response = true
    /\ tools_run (toolUseBlocks (response_content response))
         {| world := w;
            messageHistory :=
              alter (fun messages => messages ++ [assistant_turn response])%list
                session_id (messageHistory s) |}
         toolResults s1
    /\ tu1 = add_usage tu (usage response)
    /\ it1 = S it
    /\ s' = with_history World
              (alter (fun messages => messages ++ [results_turn toolResults])%list
                 session_id) s1.
Proof.
  rewrite loop_body_unfold.
  destruct (create (world s) (messages_of session_id s)) as [[response|e] w];
    [|discriminate].
  simpl. destruct (wants_tools response) eqn:Hwants; [|discriminate].
  match goal with
  | |- context [mapM ?f ?l ?st] =>
      destruct (mapM f l st) as [[toolResults|e] s1] eqn:Hrun
  end; [|discriminate].
  intros [= <- <- <-]. exists response, w, toolResults, s1.
  split_and!; try done. by apply run_tools_run.
Qed.

(** The loop goes through the passes of [tool_passes], adding the usage of
    each response to its running total and counting it. *)
Lemma tool_passes_skip session_id (s : State) responses s' remaining tu it :
  tool_passes session_id s responses s' ->
  agent_loop (length responses + remaining) session_id tu it s
  = agent_loop remaining session_id
      (foldl (fun totalUsage response => add_usage totalUsage (usage response))
         tu responses)
      (it + length responses) s'.
Proof.
  intros Hpasses. revert tu it.
  induction Hpasses as [s|s response w toolResults s1 responses s'
                          Hcreate Hwants Hrun _ IH]; intros tu it.
  - simpl. by rewrite Nat.add_0_r.
  - change (length (response :: responses) + remaining)%nat
      with (S (length responses + remaining)).
    rewrite agent_loop_unfold, (loop_body_pass _ tu it _ _ _ _ _ Hcreate Hwants Hrun).
    rewrite IH. simpl. f_equal. lia.
Qed.

Lemma tool_iterations_passes session_id k tu it (s : State) tu' it' s' :
  tool_iterations session_id k tu it s tu' it' s' ->
  exists responses,
    tool_passes session_id s responses s'
    /\ length responses = k
    /\ tu' = foldl (fun totalUsage response => add_usage totalUsage (usage response))
               tu responses.
Proof.
  induction 1 as [tu it s|k tu it s tu1 it1 s1 tu2 it2 s2 Hbody _ IH].
  - exists []. split; [constructor|done].
  - destruct (loop_body_Continue_pass _ _ _ _ _ _ _ Hbody)
      as (response & w & toolResults & s0 & Hcreate & Hwants & Hrun & -> & -> & ->).
    destruct IH as (responses & Hpasses & <- & ->).
    exists (response :: responses). split; [by econstructor|done].
Qed.

Lemma tool_passes_app_inv session_id (s : State) first rest s' :
  tool_passes session_id s (first ++ rest) s' ->
  exists si, tool_passes session_id s first si /\ tool_passes session_id si rest s'.
Proof.
  revert s. induction first as [|response first IH]; intros s; simpl.
  - intros Hrest. exists s. split; [constructor|done].
  - inversion 1 as [|? ? w toolResults s1 ? ? Hcreate Hwants Hrun Hpasses]; subst.
    destruct (IH _ Hpasses) as (si & Hfirst & Hrest).
    exists si. split; [by econstructor|done].
Qed.

(** C7: in a request, the total the loop carries after [i] passes through
    the tool branch is the sum, from zero whatever earlier requests used, of
    the [input_tokens] and [output_tokens] of the first [i] responses
    received; each pass changes it only by adding the usage of its response,
    so it never decreases; and the usage a request reports is that sum over
    all the responses it received. *)
Theorem usage_accumulates_monotonically (message : value) session_id (s : State)
    responses s1 :
  truthy message = true ->
  tool_passes (default "default" session_id)
    (loop_start message (default "default" session_id) s) responses s1 ->
  (length responses <= maxIterations)%nat ->
  (forall i,
      (i <= length responses)%nat ->
      exists si,
        tool_passes (default "default" session_id)
          (loop_start message (default "default" session_id) s)
          (take i responses) si
        /\ agent_loop maxIterations (default "default" session_id) zero_usage 0
             (loop_start message (default "default" session_id) s)
           = agent_loop (maxIterations - i) (default "default" session_id)
               (sum_usage (take i responses)) i si)
  /\ (forall i response,
        responses !! i = Some response ->
        sum_usage (take (S i) responses)
        = add_usage (sum_usage (take i responses)) (usage response)
        /\ usage_le (sum_usage (take i responses))
             (sum_usage (take (S i) responses)))
  /\ (forall final w,
        (length responses < maxIterations)%nat ->
        create (world s1) (messages_of (default "default" session_id) s1)
        = (Normal final, w) ->
        wants_tools final = false ->
        fst (post_chat message session_id s)
        = Normal (json (ChatBody (responseText (response_content final))
                          (default "default" session_id)
                          (add_usage (sum_usage responses) (usage final))
                          (S (length responses))))
        /\ usage_le (sum_usage responses)
             (add_usage (sum_usage responses) (usage final))).
Proof.
  intros Hmsg Hpasses Hlen.
  set (sid := default "default" session_id) in *.
  split_and!.
  - intros i Hi.
    rewrite <- (take_drop i responses) in Hpasses.
    destruct (tool_passes_app_inv _ _ _ _ _ Hpasses) as (si & Hfirst & _).
    exists si. split; [done|].
    replace maxIterations with (length (take i responses) + (maxIterations - i))%nat
      at 1 by (rewrite length_take; lia).
    rewrite (tool_passes_skip _ _ _ _ _ zero_usage 0 Hfirst).
    unfold sum_usage. f_equal. rewrite length_take. lia.
  - intros i response Hi. rewrite (take_S_r _ _ _ Hi).
    unfold sum_usage. rewrite foldl_app. simpl. split; [done|apply usage_le_add].
  - intros final w Hlt Hcreate Hterm. split; [|apply usage_le_add].
    rewrite (post_chat_unfold _ _ _ Hmsg). fold sid.
    replace maxIterations
      with (length responses + S (maxIterations - S (length responses)))%nat
      by lia.
    rewrite (tool_passes_skip _ _ _ _ _ zero_usage 0 Hpasses).
    rewrite agent_loop_unfold, (loop_body_terminal _ _ _ _ _ _ Hcreate Hterm).
    reflexivity.
Qed.

(** *** The session store *)

Lemma push_all session_id (turns : list Turn) (s : State) :
  exists units,
    mapM (push World session_id) turns s
    = (Normal units,
       with_history World
         (alter (fun messages => messages ++ turns)%list session_id) s).
Proof.
  revert s. induction turns as [|turn turns IH]; intros s.
  - exists []. unfold mapM. run. unfold with_history.
    rewrite alter_app_nil. by destruct s.
  - destruct (IH (with_history World
                    (alter (fun messages => messages ++ [turn])%list session_id) s))
      as [units Hrest].
    exists (tt :: units). rewrite mapM_cons.
    change (push World session_id turn s)
      with (Normal tt,
            with_history World
              (alter (fun messages => messages ++ [turn])%list session_id) s).
    cbv beta iota. rewrite Hrest. unfold with_history. simpl.
    by rewrite alter_app_app.
Qed.

Lemma get_chat_known session_id (s : State) messages :
  messageHistory s !! session_id = Some messages ->
  get_chat session_id s = (Normal (json (HistoryBody session_id messages)), s).
Proof.
  intros Hm. unfold get_chat, history_has, messages_of. run.
  rewrite Hm. cbv beta iota. by rewrite Hm.
Qed.

Lemma get_chat_unknown session_id (s : State) :
  messageHistory s !! session_id = None ->
  get_chat session_id s = (Normal (status_json 404 (ErrorBody "Session not found")), s).
Proof. intros Hm. unfold get_chat, history_has. run. by rewrite Hm. Qed.

Lemma append_turns_spec session_id (turns : list Turn) (s : State) :
  exists s',
    append_turns session_id turns s = (Normal tt, s')
    /\ world s' = world s
    /\ messageHistory s' !! session_id
       = Some (messages_of session_id s ++ turns)%list.
Proof.
  unfold append_turns.
  rewrite bind_unfold, get_or_create_spec, bind_unfold.
  match goal with
  | |- context [mapM ?f turns ?st] =>
      destruct (push_all session_id turns st) as [units Hpush]
  end.
  rewrite Hpush. eexists. split; [reflexivity|]. unfold messages_of.
  destruct (messageHistory s !! session_id) as [messages|] eqn:Hm; simpl.
  - by rewrite lookup_alter_eq, Hm.
  - by rewrite lookup_alter_eq, lookup_insert_eq.
Qed.

(** C8: for every session id and every list of turns, appending the turns
    to the session's transcript and then reading the session with
    [GET /chat/:session_id] answers 200 with the turns the transcript already
    held followed by the appended turns, in the order appended and
    unchanged; for a session that did not exist, exactly the appended turns. *)
Theorem append_get_round_trip session_id (turns : list Turn) (s : State) :
  get_chat session_id (snd (append_turns session_id turns s))
  = (Normal (json (HistoryBody session_id (messages_of session_id s ++ turns)%list)),
     snd (append_turns session_id turns s))
  /\ (messageHistory s !! session_id = None ->
      get_chat session_id (snd (append_turns session_id turns s))
      = (Normal (json (HistoryBody session_id turns)),
         snd (append_turns session_id turns s))).
Proof.
  destruct (append_turns_spec session_id turns s) as (s' & Happend & _ & Hm).
  rewrite Happend. simpl. split.
  - by apply get_chat_known.
  - intros Hnone. rewrite (get_chat_known _ _ _ Hm).
    unfold messages_of. by rewrite Hnone.
Qed.

(** C9: [DELETE /chat/:session_id] for an id the store does not hold
    answers 404 "Session not found" and leaves the state as it was; for an id
    it holds, it answers 200 with "Session <id> cleared" and removes the
    entry (and nothing else), so that [GET /chat/:session_id] on the same id
    then answers 404 "Session not found". *)
Theorem delete_session session_id (s : State) :
  (messageHistory s !! session_id = None ->
   delete_chat session_id s
   = (Normal (status_json 404 (ErrorBody "Session not found")), s))
  /\ (is_Some (messageHistory s !! session_id) ->
      exists s',
        delete_chat session_id s
        = (Normal (json (MessageBody ("Session " +:+ session_id +:+ " cleared"))),
           s')
        /\ world s' = world s
        /\ messageHistory s' = delete session_id (messageHistory s)
        /\ get_chat session_id s'
           = (Normal (status_json 404 (ErrorBody "Session not found")), s')).
Proof.
  split.
  - intros Hm. unfold delete_chat, history_has. run. by rewrite Hm.
  - intros [messages Hm]. eexists. split_and!.
    + unfold delete_chat, history_has, history_delete. run. by rewrite Hm.
    + reflexivity.
    + reflexivity.
    + apply get_chat_unknown. simpl. apply lookup_delete_eq.
Qed.

(** C10: when the call to the model throws in iteration [k + 1] of a request,
    after [k] passes through the tool branch, the request answers 500 with
    "Failed to get response from LLM" and the state keeps everything done
    before: the session's entry exists (also when the request created it)
    and its transcript is what it was before the request, then the new user
    message, then the [k] pairs of assistant and tool-result turns. *)
Theorem model_failure_keeps_transcript (message : value) session_id (s : State)
    k tu it s1 e w :
  truthy message = true ->
  tool_iterations (default "default" session_id) k zero_usage 0
    (loop_start message (default "default" session_id) s) tu it s1 ->
  (k < maxIterations)%nat ->
  create (world s1) (messages_of (default "default" session_id) s1) = (Throw e, w) ->
  exists appended,
    post_chat message session_id s
    = (Normal (status_json 500 (ErrorBody "Failed to get response from LLM")),
       {| world := w; messageHistory := messageHistory s1 |})
    /\ turn_pairs k appended = true
    /\ messageHistory s1 !! default "default" session_id
       = Some (messages_of (default "default" session_id) s
                 ++ user_turn message :: appended)%list.
Proof.
  intros Hmsg Hrun Hk Hcreate.
  destruct (request_transcript _ _ _ _ _ _ _ Hrun) as (_ & appended & Hpairs & Hhist).
  exists appended. split_and!; [|done..].
  rewrite (post_chat_skip _ _ _ _ _ _ _ Hmsg Hrun) by lia.
  destruct (maxIterations - k)%nat as [|remaining] eqn:Hrem; [lia|].
  by rewrite agent_loop_unfold, (loop_body_throws _ _ _ _ _ _ Hcreate).
Qed.

(** *** How a request ends *)

(** The loop makes some passes through the tool branch and then ends in
    one of four ways: the passes are used up, a terminal response comes, the
    call to the model throws, or a tool throws. *)
Lemma agent_loop_outcome remaining session_id tu it (s : State) :
  exists k tu1 it1 s1,
    tool_iterations session_id k tu it s tu1 it1 s1
    /\ (k <= remaining)%nat
    /\ ((k = remaining
         /\ agent_loop remaining session_id tu it s
            = (Normal (status_json 500
                         (ErrorBody "Agent loop exceeded maximum iterations")), s1))
        \/ ((k < remaining)%nat
            /\ exists response w,
                create (world s1) (messages_of session_id s1) = (Normal response, w)
                /\ wants_tools response = false
                /\ agent_loop remaining session_id tu it s
                   = (Normal (json (ChatBody
                                      (responseText (response_content response))
                                      session_id
                                      (add_usage tu1 (usage response)) (S it1))),
                      {| world := w;
                         messageHistory :=
                           alter (fun messages =>
                                    messages ++ [assistant_turn response])%list
                             session_id (messageHistory s1) |}))
        \/ ((k < remaining)%nat
            /\ exists e w,
                create (world s1) (messages_of session_id s1) = (Throw e, w)
                /\ agent_loop remaining session_id tu it s
                   = (Throw e, {| world := w; messageHistory := messageHistory s1 |}))
        \/ ((k < remaining)%nat
            /\ exists response w e s2,
                create (world s1) (messages_of session_id s1) = (Normal response, w)
                /\ wants_tools response = true
                /\ ~ Forall tool_ok (toolUseBlocks (response_content response))
                /\ messageHistory s2
                   = alter (fun messages =>
                              messages ++ [assistant_turn response])%list
                       session_id (messageHistory s1)
                /\ agent_loop remaining session_id tu it s = (Throw e, s2))).
Proof.
  revert tu it s. induction remaining as [|remaining IH]; intros tu it s.
  - exists 0%nat, tu, it, s. split; [constructor|]. split; [lia|]. by left.
  - rewrite agent_loop_unfold.
    destruct (create (world s) (messages_of session_id s)) as [[response|e] w]
      eqn:Hcreate.
    + destruct (wants_tools response) eqn:Hwants.
      * pose proof (loop_body_unfold session_id tu it s) as Hbody.
        rewrite Hcreate in Hbody. simpl in Hbody. rewrite Hwants in Hbody.
        match type of Hbody with
        | context [mapM ?f ?l ?st] =>
            pose proof (run_tools_history l st) as Hhist;
            pose proof (run_tools_returns l st) as Hreturns;
            destruct (mapM f l st) as [[toolResults|e] s2] eqn:Hrun
        end.
        -- rewrite Hbody.
           destruct (IH (add_usage tu (usage response)) (S it)
                       (with_history World
                          (alter (fun messages =>
                                    messages ++ [results_turn toolResults])%list
                             session_id) s2))
             as (k & tu1 & it1 & s1 & Hiter & Hk & Hend).
           exists (S k), tu1, it1, s1.
           split; [by econstructor|]. split; [lia|].
           destruct Hend as [[-> Hend]|[[Hlt Hend]|[[Hlt Hend]|[Hlt Hend]]]].
           ++ by left.
           ++ right; left. split; [lia|done].
           ++ right; right; left. split; [lia|done].
           ++ right; right; right. split; [lia|done].
        -- exists 0%nat, tu, it, s. split; [constructor|]. split; [lia|].
           right; right; right. split; [lia|].
           exists response, w, e, s2. rewrite Hbody. split_and!; try done.
           intros Hok. by destruct (Hreturns Hok) as (? & ? & ?).
      * exists 0%nat, tu, it, s. split; [constructor|]. split; [lia|].
        right; left. split; [lia|]. exists response, w.
        by rewrite (loop_body_terminal _ tu it _ _ _ Hcreate Hwants).
    + exists 0%nat, tu, it, s. split; [constructor|]. split; [lia|].
      right; right; left. split; [lia|]. exists e, w.
      by rewrite (loop_body_throws _ tu it _ _ _ Hcreate).
Qed.

Lemma loop_start_other (message : value) session_id other (s : State) :
  other <> session_id ->
  messageHistory (loop_start message session_id s) !! other
  = messageHistory s !! other.
Proof.
  intros Hne. unfold loop_start. run. rewrite get_or_create_spec. simpl.
  rewrite lookup_alter_ne by done.
  destruct (messageHistory s !! session_id); simpl; [done|].
  by rewrite lookup_insert_ne.
Qed.

(** A request with a message: [k] passes through the tool branch, then one
    of the four endings, with the answer and the transcript of each. *)
Lemma request_outcome (message : value) session_id (s : State) :
  truthy message = true ->
  exists k tu s1 appended,
    tool_iterations (default "default" session_id) k zero_usage 0
      (loop_start message (default "default" session_id) s) tu k s1
    /\ (k <= maxIterations)%nat
    /\ turn_pairs k appended = true
    /\ messages_of (default "default" session_id) s1
       = (messages_of (default "default" session_id) s
            ++ user_turn message :: appended)%list
    /\ exists answer s',
        post_chat message session_id s = (Normal answer, s')
        /\ (forall other,
              other <> default "default" session_id ->
              messageHistory s' !! other = messageHistory s !! other)
        /\ ((k = maxIterations
             /\ answer = status_json 500
                           (ErrorBody "Agent loop exceeded maximum iterations")
             /\ messageHistory s' !! default "default" session_id
                = Some (messages_of (default "default" session_id) s1))
            \/ ((k < maxIterations)%nat
                /\ exists response,
                    fst (create (world s1)
                           (messages_of (default "default" session_id) s1))
                    = Normal response
                    /\ wants_tools response = false
                    /\ answer = json (ChatBody
                                        (responseText (response_content response))
                                        (default "default" session_id)
                                        (add_usage tu (usage response)) (S k))
                    /\ messageHistory s' !! default "default" session_id
                       = Some (messages_of (default "default" session_id) s1
                                 ++ [assistant_turn response])%list)
            \/ ((k < maxIterations)%nat
                /\ exists e,
                    fst (create (world s1)
                           (messages_of (default "default" session_id) s1))
                    = Throw e
                    /\ answer = status_json 500
                                  (ErrorBody "Failed to get response from LLM")
                    /\ messageHistory s' !! default "default" session_id
                       = Some (messages_of (default "default" session_id) s1))
            \/ ((k < maxIterations)%nat
                /\ exists response,
                    fst (create (world s1)
                           (messages_of (default "default" session_id) s1))
                    = Normal response
                    /\ wants_tools response = true
                    /\ ~ Forall tool_ok (toolUseBlocks (response_content response))
                    /\ answer = status_json 500
                                  (ErrorBody "Failed to get response from LLM")
                    /\ messageHistory s' !! default "default" session_id
                       = Some (messages_of (default "default" session_id) s1
                                 ++ [assistant_turn response])%list)).
Proof.
  intros Hmsg. rewrite (post_chat_unfold _ _ _ Hmsg).
  set (sid := default "default" session_id).
  destruct (agent_loop_outcome maxIterations sid zero_usage 0
              (loop_start message sid s))
    as (k & tu & it & s1 & Hiter & Hk & Hend).
  destruct (request_transcript _ _ _ _ _ _ _ Hiter) as (-> & appended & Hpairs & Hs1).
  destruct (tool_iterations_spec _ _ _ _ _ _ _ _ Hiter)
    as (_ & _ & appended' & _ & Hhist).
  assert (messages_of sid s1 = (messages_of sid s ++ user_turn message :: appended)%list)
    as Hmsgs by (unfold messages_of at 1; by rewrite Hs1).
  assert (forall other, other <> sid ->
            messageHistory s1 !! other = messageHistory s !! other) as Hother.
  { intros other Hne. rewrite Hhist, lookup_alter_ne by done.
    by apply loop_start_other. }
  exists k, tu, s1, appended. split_and!; [done..|].
  destruct Hend as [[-> Hrun]|[[Hlt Hend]|[[Hlt Hend]|[Hlt Hend]]]].
  - rewrite Hrun. eexists _, _. split; [reflexivity|]. split; [done|].
    left. split_and!; [done..|]. by rewrite Hs1, Hmsgs.
  - destruct Hend as (response & w & Hcreate & Hterm & Hrun).
    rewrite Hrun. eexists _, _. split; [reflexivity|]. split.
    { intros other Hne. simpl. rewrite lookup_alter_ne by done. by apply Hother. }
    right; left. split; [done|]. exists response. rewrite Hcreate.
    split_and!; [done..|]. simpl. by rewrite lookup_alter_eq, Hs1, Hmsgs.
  - destruct Hend as (e & w & Hcreate & Hrun).
    rewrite Hrun. eexists _, _. split; [reflexivity|]. split; [done|].
    right; right; left. split; [done|]. exists e. rewrite Hcreate.
    split_and!; [done..|]. simpl. by rewrite Hs1, Hmsgs.
  - destruct Hend as (response & w & e & s2 & Hcreate & Hwants & Hbad & Hs2 & Hrun).
    rewrite Hrun. eexists _, _. split; [reflexivity|]. split.
    { intros other Hne. rewrite Hs2, lookup_alter_ne by done. by apply Hother. }
    right; right; right. split; [done|]. exists response. rewrite Hcreate.
    split_and!; [done..|]. by rewrite Hs2, lookup_alter_eq, Hs1, Hmsgs.
Qed.

Lemma turn_pairs_length k (turns : list Turn) :
  turn_pairs k turns = true -> length turns = (2 * k)%nat.
Proof.
  revert turns. induction k as [|k IH]; intros [|call [|reply rest]]; simpl;
    try discriminate; [done|].
  intros [_ Hrest]%andb_prop. rewrite (IH _ Hrest). lia.
Qed.

Lemma turn_pairs_alternates k (turns tail : list Turn) :
  turn_pairs k turns = true ->
  alternates assistant (turns ++ tail) = alternates assistant tail.
Proof.
  revert turns. induction k as [|k IH]; intros [|call [|reply rest]]; simpl;
    try discriminate; [done|].
  intros [Hpair Hrest]%andb_prop.
  destruct (role call); [discriminate|].
  destruct (turn_tool_uses call); [discriminate|].
  unfold answers in Hpair. destruct (role reply); [|discriminate].
  by apply IH.
Qed.

Lemma missing_message_refused_state (message : value) session_id (s : State) :
  truthy message = false -> snd (post_chat message session_id s) = s.
Proof. intros Hmsg. unfold post_chat, try_catch. by rewrite Hmsg. Qed.

Lemma missing_message_refused_answer (message : value) session_id (s : State) :
  truthy message = false ->
  fst (post_chat message session_id s)
  = Normal (status_json 400 (ErrorBody "Message is required")).
Proof. intros Hmsg. unfold post_chat, try_catch. by rewrite Hmsg. Qed.

(** From a parsed body on, the handler is [post_chat] on its fields. *)
Lemma chat_request_fields (fields : RequestBody number) (s : State) :
  chat_request (Some fields) s
  = post_chat (body_message fields) (body_session_id fields) s.
Proof. reflexivity. Qed.

(** X1: a request with a parsed body whose [message] is falsy (absent,
    [null], [false], [0] or the empty string) is answered 400 "Message is
    required"; a request whose body is [undefined] makes the destructuring of
    line 74 throw inside the [try] and is answered 500 "Failed to get response
    from LLM".  Either way nothing changes: no session is created and the
    model is not called. *)
Theorem missing_message_is_refused (s : State) :
  (forall fields : RequestBody number,
      truthy (body_message fields) = false ->
      chat_request (Some fields) s
      = (Normal (status_json 400 (ErrorBody "Message is required")), s))
  /\ chat_request None s
     = (Normal (status_json 500 (ErrorBody "Failed to get response from LLM")), s).
Proof.
  split; [|reflexivity].
  intros fields Hmsg. rewrite chat_request_fields.
  unfold post_chat, try_catch. by rewrite Hmsg.
Qed.


(** The session's transcript after a request with a message. *)
Lemma request_appends (message : value) session_id (s : State) :
  truthy message = true ->
  exists appended,
    messageHistory (snd (post_chat message session_id s))
      !! default "default" session_id
    = Some (messages_of (default "default" session_id) s
              ++ user_turn message :: appended)%list
    /\ (length appended <= 2 * maxIterations)%nat
    /\ alternates assistant appended = true.
Proof.
  intros Hmsg.
  destruct (request_outcome message session_id s Hmsg)
    as (k & tu & s1 & appended & _ & Hk & Hpairs & Hmsgs & answer & s' & -> & _ & Hend).
  pose proof (turn_pairs_length _ _ Hpairs) as Hlen.
  pose proof (turn_pairs_alternates _ _ [] Hpairs) as Halt0.
  rewrite app_nil_r in Halt0. cbn [snd]. unfold maxIterations in *.
  destruct Hend as [(-> & _ & Hs')|[(Hlt & r & _ & _ & _ & Hs')
                   |[(Hlt & e & _ & _ & Hs')|(Hlt & r & _ & _ & _ & _ & Hs')]]];
    rewrite Hs', Hmsgs.
  - exists appended. split_and!; [done|lia|done].
  - exists (appended ++ [assistant_turn r])%list.
    rewrite <- app_assoc. split_and!; [done| |].
    + rewrite length_app. simpl. lia.
    + by rewrite (turn_pairs_alternates _ _ _ Hpairs).
  - exists appended. split_and!; [done|lia|done].
  - exists (appended ++ [assistant_turn r])%list.
    rewrite <- app_assoc. split_and!; [done| |].
    + rewrite length_app. simpl. lia.
    + by rewrite (turn_pairs_alternates _ _ _ Hpairs).
Qed.

(** X3: a request with a message never removes or rewrites a turn: afterwards
    the session exists and its transcript is the earlier transcript, then the
    user message, then at most [2 * 10] further turns, whatever the model and
    the tools did. *)
Theorem request_only_appends (message : value) session_id (s : State) :
  truthy message = true ->
  exists appended,
    messageHistory (snd (post_chat message session_id s))
      !! default "default" session_id
    = Some (messages_of (default "default" session_id) s
              ++ user_turn message :: appended)%list
    /\ (length appended <= 2 * maxIterations)%nat.
Proof.
  intros Hmsg.
  destruct (request_appends message session_id s Hmsg) as (appended & H & Hlen & _).
  by exists appended.
Qed.

(** X4: a request changes no session but its own. *)
Theorem request_leaves_other_sessions (message : value) session_id (s : State) other :
  other <> default "default" session_id ->
  messageHistory (snd (post_chat message session_id s)) !! other
  = messageHistory s !! other.
Proof.
  intros Hne. destruct (truthy message) eqn:Hmsg.
  - destruct (request_outcome message session_id s Hmsg)
      as (k & tu & s1 & appended & _ & _ & _ & _ & answer & s' & -> & Hother & _).
    by apply Hother.
  - by rewrite missing_message_refused_state.
Qed.

(** X5: whatever the request, the model and the tools do, the handler does not
    throw and answers in one of three ways: 400 "Message is required"; 200
    with the session id used and an iteration count between 1 and 10; or 500
    with one of the two error messages. *)
Theorem request_always_answers (message : value) session_id (s : State) :
  exists answer s',
    post_chat message session_id s = (Normal answer, s')
    /\ ((truthy message = false
         /\ answer = status_json 400 (ErrorBody "Message is required"))
        \/ (exists reply u k,
              answer = json (ChatBody reply (default "default" session_id) u k)
              /\ (1 <= k <= maxIterations)%nat)
        \/ answer = status_json 500
                      (ErrorBody "Agent loop exceeded maximum iterations")
        \/ answer = status_json 500 (ErrorBody "Failed to get response from LLM")).
Proof.
  destruct (truthy message) eqn:Hmsg.
  - destruct (request_outcome message session_id s Hmsg)
      as (k & tu & s1 & appended & _ & Hk & _ & _ & answer & s' & Hpost & _ & Hend).
    exists answer, s'. split; [done|].
    destruct Hend as [(_ & -> & _)|[(Hlt & r & _ & _ & -> & _)
                     |[(_ & e & _ & -> & _)|(_ & r & _ & _ & _ & -> & _)]]];
      [by right; right; left| |by right; right; right..].
    right; left. eexists _, _, _. split; [reflexivity|lia].
  - eexists _, _. split; [|by left].
    unfold post_chat, try_catch. by rewrite Hmsg.
Qed.

(** X6: when a request is answered 200, the responses it received are the
    ones the model gave to the successive calls of this request, each but the
    last asking for tools that returned and the last one terminal; the
    iteration count reported is their number, the usage reported is the sum of
    their usages from zero, and the reply is the text of the last. *)
Theorem reported_usage_is_sum (message : value) session_id (s : State)
    reply session_id' u n s' :
  post_chat message session_id s
  = (Normal (json (ChatBody reply session_id' u n)), s') ->
  exists (responses : list ModelResponse) s1 final w,
    tool_passes (default "default" session_id)
      (loop_start message (default "default" session_id) s) responses s1
    /\ create (world s1) (messages_of (default "default" session_id) s1)
       = (Normal final, w)
    /\ wants_tools final = false
    /\ n = S (length responses)
    /\ u = sum_usage (responses ++ [final])
    /\ reply = responseText (response_content final)
    /\ session_id' = default "default" session_id
    /\ world s' = w.
Proof.
  intros Hpost. destruct (truthy message) eqn:Hmsg.
  - destruct (request_outcome message session_id s Hmsg)
      as (k & tu & s1 & _ & Hiter & Hk & _ & _ & answer & s'' & Hpost' & _ & Hend).
    pose proof Hpost as Hpost2.
    rewrite Hpost' in Hpost2. injection Hpost2 as -> ->.
    destruct Hend as [(_ & [=] & _)|[(Hlt & final & Hcreate & Hterm & Hanswer & _)
                     |[(_ & e & _ & [=] & _)|(_ & r & _ & _ & _ & [=] & _)]]].
    injection Hanswer as -> -> -> ->.
    destruct (tool_iterations_passes _ _ _ _ _ _ _ _ Hiter)
      as (responses & Hpasses & <- & ->).
    destruct (create (world s1) (messages_of (default "default" session_id) s1))
      as [c w] eqn:Hc. simpl in Hcreate. subst c.
    exists responses, s1, final, w. split_and!; try done.
    + unfold sum_usage. by rewrite foldl_app.
    + rewrite (post_chat_skip _ _ _ _ _ _ _ Hmsg Hiter) in Hpost by lia.
      destruct (maxIterations - length responses)%nat as [|remaining] eqn:Hrem;
        [lia|].
      rewrite agent_loop_unfold, (loop_body_terminal _ _ _ _ _ _ Hc Hterm) in Hpost.
      by injection Hpost as <-.
  - pose proof (missing_message_refused_answer message session_id s Hmsg) as H400.
    rewrite Hpost in H400. discriminate.
Qed.

(** X7: the turns a request with a message appends alternate between user
    and assistant, beginning with the user message. *)
Theorem request_turns_alternate (message : value) session_id (s : State) :
  truthy message = true ->
  exists added,
    messageHistory (snd (post_chat message session_id s))
      !! default "default" session_id
    = Some (messages_of (default "default" session_id) s ++ added)%list
    /\ alternates user added = true.
Proof.
  intros Hmsg.
  destruct (request_appends message session_id s Hmsg) as (appended & H & _ & Halt).
  by exists (user_turn message :: appended).
Qed.

(** X8: reading a session right after a request with a message to it answers
    200 with the earlier transcript, the user message and what the request
    appended, also when the request itself was answered 500. *)
Theorem get_after_post (message : value) session_id (s : State) :
  truthy message = true ->
  exists appended,
    get_chat (default "default" session_id) (snd (post_chat message session_id s))
    = (Normal (json (HistoryBody (default "default" session_id)
                       (messages_of (default "default" session_id) s
                          ++ user_turn message :: appended)%list)),
       snd (post_chat message session_id s)).
Proof.
  intros Hmsg.
  destruct (request_appends message session_id s Hmsg) as (appended & H & _).
  exists appended. by apply get_chat_known.
Qed.

Lemma delete_chat_state session_id (s : State) :
  world (snd (delete_chat session_id s)) = world s
  /\ messageHistory (snd (delete_chat session_id s)) !! session_id = None
  /\ (forall other,
        other <> session_id ->
        messageHistory (snd (delete_chat session_id s)) !! other
        = messageHistory s !! other).
Proof.
  unfold delete_chat, history_has, history_delete. run.
  destruct (messageHistory s !! session_id) eqn:Hm; simpl.
  - split_and!; [done|apply lookup_delete_eq|].
    intros other Hne. by apply lookup_delete_ne.
  - done.
Qed.

(** X9: after a session is deleted, the next request to it starts a new
    transcript with its own user message: nothing of the deleted history is
    kept or sent to the model. *)
Theorem post_after_delete_starts_afresh (message : value) session_id (s : State) :
  truthy message = true ->
  messages_of session_id
    (loop_start message session_id (snd (delete_chat session_id s)))
  = [user_turn message]
  /\ exists appended,
      messageHistory
        (snd (post_chat message (Some session_id) (snd (delete_chat session_id s))))
        !! session_id
      = Some (user_turn message :: appended).
Proof.
  intros Hmsg.
  destruct (delete_chat_state session_id s) as (_ & Hgone & _).
  assert (messages_of session_id (snd (delete_chat session_id s)) = []) as Hnil
    by (unfold messages_of; by rewrite Hgone).
  split.
  - destruct (loop_start_spec message session_id (snd (delete_chat session_id s)))
      as [_ ->]. by rewrite Hnil.
  - destruct (request_appends message (Some session_id)
                (snd (delete_chat session_id s)) Hmsg) as (appended & H & _).
    exists appended. simpl in H. by rewrite Hnil in H.
Qed.

(** X10: deleting a session leaves the clock and model and every other
    session as they were, and a second delete of the same id is always
    answered 404 and changes nothing. *)
Theorem delete_is_local_and_final session_id (s : State) :
  world (snd (delete_chat session_id s)) = world s
  /\ (forall other,
        other <> session_id ->
        messageHistory (snd (delete_chat session_id s)) !! other
        = messageHistory s !! other)
  /\ delete_chat session_id (snd (delete_chat session_id s))
     = (Normal (status_json 404 (ErrorBody "Session not found")),
        snd (delete_chat session_id s)).
Proof.
  destruct (delete_chat_state session_id s) as (Hworld & Hgone & Hother).
  split_and!; [done..|].
  unfold delete_chat at 1, history_has. run. by rewrite Hgone.
Qed.

(** *** More on the tools *)

(** X11: when the [timezone] of the input is truthy and its string form is a
    time zone name the host accepts, the time tool returns the rendering of
    the clock reading in that zone, the [timezone] value just as it was given
    and no [note]. *)
Theorem executeTool_valid_timezone (toolInput tz : value) (s : State) now w zone :
  get_property toolInput "timezone" = Normal tz ->
  truthy tz = true ->
  ToString tz = Normal zone ->
  valid_timezone zone = true ->
  new_Date (world s) = (now, w) ->
  executeTool "get_current_time" toolInput s
  = (Normal (TimeOutput (toISOString now) (toLocaleString now zone) tz
               (getTime now / 1000)%Z None),
     {| world := w; messageHistory := messageHistory s |}).
Proof.
  intros Hget Htruthy Hzone Hvalid Hnow.
  rewrite (executeTool_time _ _ _ _ _ Hget Hnow).
  unfold js_or. by rewrite Htruthy, Hzone, Hvalid.
Qed.

(** X12: whenever the time tool returns, the [timezone] of its input could
    be read and converted to a string, and its output carries the ISO form
    of the clock reading and, as [unix_timestamp], its milliseconds divided
    by 1000 and rounded down; it has no [note] exactly when the host accepts
    the time zone, and then carries the value given (or "UTC") and the
    rendering in that zone; with a [note], [timezone] is "UTC" and
    [formatted] the UTC string. *)
Theorem executeTool_time_output (toolInput : value) (s : State) now w out s' :
  new_Date (world s) = (now, w) ->
  executeTool "get_current_time" toolInput s = (Normal out, s') ->
  exists tz zone formatted timezone unix_timestamp note,
    get_property toolInput "timezone" = Normal tz
    /\ ToString (js_or tz (Str "UTC")) = Normal zone
    /\ out = TimeOutput (toISOString now) formatted timezone unix_timestamp note
    /\ s' = {| world := w; messageHistory := messageHistory s |}
    /\ (1000 * unix_timestamp <= getTime now < 1000 * unix_timestamp + 1000)%Z
    /\ (note = None <-> valid_timezone zone = true)
    /\ (note = None ->
        timezone = js_or tz (Str "UTC") /\ formatted = toLocaleString now zone)
    /\ (note <> None -> timezone = Str "UTC" /\ formatted = toUTCString now).
Proof.
  intros Hnow Hrun.
  destruct (get_property toolInput "timezone") as [tz|e] eqn:Hget.
  - rewrite (executeTool_time _ _ _ _ _ Hget Hnow) in Hrun.
    destruct (ToString (js_or tz (Str "UTC"))) as [zone|e] eqn:Hzone;
      [|discriminate].
    injection Hrun as <- <-.
    pose proof (Z.div_mod (getTime now) 1000 ltac:(lia)) as Hdiv.
    pose proof (Z.mod_pos_bound (getTime now) 1000 ltac:(lia)) as Hmod.
    exists tz, zone.
    destruct (valid_timezone zone) eqn:Hvalid; eexists _, _, _, _;
      (split; [reflexivity|]); (split; [exact Hzone|]); (split; [reflexivity|]);
      (split; [reflexivity|]); (split; [lia|]); split_and!; try done.
  - rewrite (executeTool_time_unreadable _ _ _ _ _ Hget Hnow) in Hrun.
    discriminate.
Qed.

(** X13: an input that is not an object (a number, a string, a boolean or an
    array) is read as an object without properties: the tool behaves as on
    the empty object, a string input is not taken for the time zone. *)
Theorem executeTool_ignores_non_object_input toolName (toolInput : value)
    (s : State) :
  not_nullish toolInput = true ->
  (forall props, toolInput <> Obj props) ->
  executeTool toolName toolInput s = executeTool toolName (Obj []) s.
Proof.
  intros Hpresent Hshape. unfold executeTool.
  destruct (String.eqb toolName "get_current_time"); [|done].
  destruct toolInput; try discriminate; try reflexivity.
  by destruct (Hshape properties).
Qed.

(** X14: running tools never changes the session store, neither one tool nor
    all the tools of a response, whether they return or throw. *)
Theorem tools_keep_sessions :
  (forall toolName (toolInput : value) (s : State),
      messageHistory (snd (executeTool toolName toolInput s)) = messageHistory s)
  /\ (forall (toolUses : list ToolUseBlock) (s : State),
        messageHistory (snd (mapM run_tool toolUses s)) = messageHistory s).
Proof. split; [apply executeTool_history|apply run_tools_history]. Qed.

(** X15: the dispatcher knows exactly the declared tools: called with an
    input, [executeTool] answers [{ error }] if and only if the name is not
    the name of an entry of [tools]. *)
Theorem tools_are_dispatched toolName (toolInput : value) (s : State) :
  not_nullish toolInput = true ->
  (exists error s',
      executeTool toolName toolInput s = (Normal (ErrorOutput error), s'))
  <-> ~ In toolName (map tool_name tools).
Proof.
  intros Hpresent. split.
  - intros (error & s' & Hrun) Hin. simpl in Hin. destruct Hin as [<-|[]].
    destruct (get_property_not_nullish _ "timezone" Hpresent) as [tz Htz].
    destruct (new_Date (world s)) as [now w] eqn:Hnow.
    rewrite (executeTool_time _ _ _ _ _ Htz Hnow) in Hrun.
    destruct (ToString (js_or tz (Str "UTC"))) as [zone|e]; [|discriminate].
    by destruct (valid_timezone zone).
  - intros Hnot. eexists _, _. apply executeTool_unknown.
    intros ->. apply Hnot. by left.
Qed.

End Properties.

(** ** The properties on the sample host *)

(** A request answered in two iterations: the model asks for the time, gets
    the tool's result and replies; the transcript gains four turns. *)
Example two_iterations_four_turns :
  fst (Sample.post_chat [Normal (Sample.asks_time (Obj []));
                         Normal (Sample.says "It is now noon")]
         (Str "What time is it?") None Sample.s0)
  = Normal (json (ChatBody "It is now noon" "default" (Sample.tokens 50 19) 2))
  /\ length (Sample.history
               (snd (Sample.post_chat [Normal (Sample.asks_time (Obj []));
                                       Normal (Sample.says "It is now noon")]
                       (Str "What time is it?") None Sample.s0)) "default")
     = 4%nat.
Proof. split; vm_compute; reflexivity. Qed.

(** A request without a message is refused before the store is touched. *)
Example message_is_required :
  Sample.post_chat [] (Str "") None Sample.s0
  = (Normal (status_json 400 (ErrorBody "Message is required")), Sample.s0).
Proof. vm_compute. reflexivity. Qed.


(** The model's view of a time zone that cannot be converted to a string:
    the tool throws from its [catch] block and the request is answered 500. *)
Example unconvertible_timezone_throws :
  Sample.executeTool "get_current_time"
    (Obj [("timezone", Obj [("toString", Num 1%Z)])]) Sample.s0
  = (Throw (TypeError "Cannot convert object to primitive value"), Sample.s0)
  /\ fst (Sample.post_chat
            [Normal (Sample.asks_time
                       (Obj [("timezone", Obj [("toString", Num 1%Z)])]))]
            (Str "What time is it?") None Sample.s0)
     = Normal (status_json 500 (ErrorBody "Failed to get response from LLM")).
Proof. split; vm_compute; reflexivity. Qed.


(** C5 fails as stated: the empty string is not a time zone name, yet the
    time tool called with it answers for UTC without any [note]. *)
Lemma empty_timezone_has_no_note :
  Sample.valid_timezone "" = false
  /\ Sample.executeTool "get_current_time" (Obj [("timezone", Str "")]) Sample.s0
     = (Normal (TimeOutput "2025-01-01T12:00:00.000Z" "1/1/2025, 12:00:00 PM"
                  (Str "UTC") 1735732800 None),
        Sample.s0).
Proof. split; vm_compute; reflexivity. Qed.

(** An unknown time zone name, and a falsy [timezone]. *)
Lemma executeTool_timezone_fallback_witness :
  Sample.executeTool "get_current_time"
    (Obj [("timezone", Str "Mars/Phobos")]) Sample.s0
  = (Normal (TimeOutput "2025-01-01T12:00:00.000Z" "Wed, 01 Jan 2025 12:00:00 GMT"
               (Str "UTC") 1735732800
               (Some ("Invalid timezone " +:+ dquote +:+ "Mars/Phobos"
                        +:+ dquote +:+ ", defaulted to UTC"))),
     Sample.s0)
  /\ Sample.executeTool "get_current_time" (Obj [("timezone", Num 0%Z)]) Sample.s0
     = (Normal (TimeOutput "2025-01-01T12:00:00.000Z" "1/1/2025, 12:00:00 PM"
                  (Str "UTC") 1735732800 None),
        Sample.s0).
Proof.
  split.
  - apply (executeTool_timezone_fallback Sample.number_falsy Sample.number_toString
             nat Sample.new_Date Sample.valid_timezone
             (Obj [("timezone", Str "Mars/Phobos")]) (Str "Mars/Phobos")
             Sample.s0 Sample.noon 0%nat eq_refl eq_refl); reflexivity.
  - apply (executeTool_timezone_fallback Sample.number_falsy Sample.number_toString
             nat Sample.new_Date Sample.valid_timezone
             (Obj [("timezone", Num 0%Z)]) (Num 0%Z)
             Sample.s0 Sample.noon 0%nat eq_refl eq_refl); reflexivity.
Defined.


Lemma scripted_stops_for_tools :
  tool_uses_stop_for_tools nat
    (Sample.scripted [Normal (Sample.asks_time (Obj []));
                      Normal (Sample.says "It is noon.")]).
Proof.
  intros w messages response w'. unfold Sample.scripted.
  destruct w as [|[|[|w]]]; simpl; by intros [= <- _].
Qed.

Lemma scripted_inputs_present :
  inputs_present Sample.number_falsy Sample.number_toString nat
    (Sample.scripted [Normal (Sample.asks_time (Obj []));
                      Normal (Sample.says "It is noon.")]).
Proof.
  intros w messages response w'. unfold Sample.scripted.
  destruct w as [|[|[|w]]]; simpl; intros [= <- _];
    repeat (constructor; try reflexivity).
Qed.


Lemma always_asks_wants_tools toolInput :
  always_wants_tools nat (Sample.always_asks toolInput).
Proof.
  intros w messages. eexists _, _. split_and!; [reflexivity..|discriminate].
Qed.

Lemma always_asks_inputs_present :
  inputs_present Sample.number_falsy Sample.number_toString nat
    (Sample.always_asks (Obj [])).
Proof.
  intros w messages response w' [= <- _]. repeat (constructor; try reflexivity).
Qed.



(** A first request to a new session "s1", answered "Hello". *)
Lemma hello_in_one_iteration_witness :
  exists s',
    Sample.post_chat [Normal (Sample.says "Hello")] (Str "Hi") (Some "s1") Sample.s0
    = (Normal (json (ChatBody "Hello" "s1" (Sample.tokens 20 7) 1)), s')
    /\ world s' = 1%nat
    /\ messageHistory s' !! "s1"
       = Some [user_turn (Str "Hi"); assistant_turn (Sample.says "Hello")].
Proof.
  apply (hello_in_one_iteration Sample.number_falsy Sample.number_toString
           Sample.JSON_stringify nat Sample.new_Date
           (Sample.scripted [Normal (Sample.says "Hello")])
           Sample.valid_timezone (Str "Hi") (Some "s1") Sample.s0
           (Sample.says "Hello") 1%nat); reflexivity.
Defined.

(** One pass through the tool branch leads from [asked] to [told], for any
    model whose first answer asks for the time. *)
Lemma told_after_one_iteration create :
  create 0%nat (Sample.history Sample.asked "default")
  = (Normal (Sample.asks_time (Obj [])), 1%nat) ->
  Sample.tool_iterations_with create "default" 1 zero_usage 0 Sample.asked
    (Sample.tokens 30 12) 1 Sample.told.
Proof.
  intros Hcreate. econstructor; [|constructor].
  unfold Sample.loop_body_with. rewrite loop_body_unfold.
  change (world Sample.asked) with 0%nat.
  change (messages_of nat "default" Sample.asked)
    with (Sample.history Sample.asked "default").
  rewrite Hcreate. vm_compute. reflexivity.
Qed.

(** A terminal response without text in the second iteration: the reply
    is empty. *)
Lemma terminal_response_reply_witness :
  exists s',
    Sample.post_chat [Normal (Sample.asks_time (Obj [])); Normal Sample.cut_off]
      (Str "What time is it?") None Sample.s0
    = (Normal (json (ChatBody (responseText (response_content Sample.cut_off))
                       "default"
                       (add_usage (Sample.tokens 30 12) (usage Sample.cut_off)) 2)),
       s')
    /\ Sample.history s' "default"
       = (Sample.history Sample.told "default" ++ [assistant_turn Sample.cut_off])%list
    /\ (forall before text after,
          response_content Sample.cut_off = (before ++ Text text :: after)%list ->
          no_text before ->
          responseText (response_content Sample.cut_off) = text)
    /\ (no_text (response_content Sample.cut_off) ->
        responseText (response_content Sample.cut_off) = "").
Proof.
  apply (terminal_response_reply Sample.number_falsy Sample.number_toString
           Sample.JSON_stringify nat Sample.new_Date
           (Sample.scripted [Normal (Sample.asks_time (Obj [])); Normal Sample.cut_off])
           Sample.valid_timezone (Str "What time is it?") None Sample.s0
           1%nat (Sample.tokens 30 12) 1%nat Sample.told Sample.cut_off 2%nat).
  - reflexivity.
  - apply told_after_one_iteration. reflexivity.
  - unfold maxIterations. lia.
  - reflexivity.
  - reflexivity.
Defined.

(** One pass through the tool branch, as calls and results, leads from
    [asked] to [told] for any model whose first answer asks for the time. *)
Lemma told_pass create :
  create 0%nat (Sample.history Sample.asked "default")
  = (Normal (Sample.asks_time (Obj [])), 1%nat) ->
  Sample.tool_passes_with create "default" Sample.asked
    [Sample.asks_time (Obj [])] Sample.told.
Proof.
  intros Hcreate.
  destruct (tool_iterations_passes _ _ _ _ _ _ _ _ _ _ _ _ _ _ _
              (told_after_one_iteration create Hcreate))
    as (responses & Hpasses & Hlen & _).
  destruct responses as [|response [|? ?]]; try discriminate.
  inversion Hpasses as [|? ? w ? ? ? ? Hcreate' ? ? ?]; subst.
  change (world Sample.asked) with 0%nat in Hcreate'.
  change (messages_of nat "default" Sample.asked)
    with (Sample.history Sample.asked "default") in Hcreate'.
  rewrite Hcreate in Hcreate'. injection Hcreate' as <- _. exact Hpasses.
Qed.

(** The request answered in two iterations: the total after the first pass
    is the usage of the first response, and the usage reported is the sum of
    the two. *)
Lemma usage_accumulates_monotonically_witness :
  sum_usage (take 1 [Sample.asks_time (Obj [])])
  = add_usage (sum_usage (take 0 [Sample.asks_time (Obj [])])) (Sample.tokens 30 12)
  /\ fst (Sample.post_chat [Normal (Sample.asks_time (Obj []));
                            Normal (Sample.says "It is now noon")]
            (Str "What time is it?") None Sample.s0)
     = Normal (json (ChatBody "It is now noon" "default" (Sample.tokens 50 19) 2)).
Proof.
  destruct (usage_accumulates_monotonically Sample.number_falsy
              Sample.number_toString Sample.JSON_stringify nat Sample.new_Date
              (Sample.scripted [Normal (Sample.asks_time (Obj []));
                                Normal (Sample.says "It is now noon")])
              Sample.valid_timezone (Str "What time is it?") None Sample.s0
              [Sample.asks_time (Obj [])] Sample.told
              eq_refl (told_pass _ eq_refl) ltac:(unfold maxIterations; simpl; lia))
    as (_ & Hstep & Hreport).
  split.
  - apply (Hstep 0%nat (Sample.asks_time (Obj []))). reflexivity.
  - apply (Hreport (Sample.says "It is now noon") 2%nat).
    + unfold maxIterations. simpl. lia.
    + reflexivity.
    + reflexivity.
Defined.

(** Two turns appended to a new session and read back. *)
Lemma append_get_round_trip_witness :
  get_chat nat "s1"
    (snd (append_turns nat "s1"
            [user_turn (Str "Hi"); assistant_turn (Sample.says "Hello")] Sample.s0))
  = (Normal (json (HistoryBody "s1"
                     [user_turn (Str "Hi"); assistant_turn (Sample.says "Hello")])),
     snd (append_turns nat "s1"
            [user_turn (Str "Hi"); assistant_turn (Sample.says "Hello")] Sample.s0)).
Proof.
  apply (append_get_round_trip nat "s1"
           [user_turn (Str "Hi"); assistant_turn (Sample.says "Hello")] Sample.s0).
  reflexivity.
Defined.

(** Deleting a session that does not exist, and one that does. *)
Lemma delete_session_witness :
  delete_chat nat "s1" Sample.s0
  = (Normal (status_json 404 (ErrorBody "Session not found")), Sample.s0)
  /\ exists s',
      delete_chat nat "default" Sample.asked
      = (Normal (json (MessageBody "Session default cleared")), s')
      /\ world s' = world Sample.asked
      /\ messageHistory s' = delete "default" (messageHistory Sample.asked)
      /\ get_chat nat "default" s'
         = (Normal (status_json 404 (ErrorBody "Session not found")), s').
Proof.
  split.
  - apply (delete_session nat "s1" Sample.s0). reflexivity.
  - apply (delete_session nat "default" Sample.asked). vm_compute. by eexists.
Defined.

(** The model fails on the second call of a first-ever request. *)
Lemma model_failure_keeps_transcript_witness :
  exists appended,
    Sample.post_chat [Normal (Sample.asks_time (Obj []))]
      (Str "What time is it?") None Sample.s0
    = (Normal (status_json 500 (ErrorBody "Failed to get response from LLM")),
       {| world := 2%nat; messageHistory := messageHistory Sample.told |})
    /\ turn_pairs 1 appended = true
    /\ messageHistory Sample.told !! "default"
       = Some (Sample.history Sample.s0 "default"
                 ++ user_turn (Str "What time is it?") :: appended)%list.
Proof.
  apply (model_failure_keeps_transcript Sample.number_falsy Sample.number_toString
           Sample.JSON_stringify nat Sample.new_Date
           (Sample.scripted [Normal (Sample.asks_time (Obj []))])
           Sample.valid_timezone (Str "What time is it?") None Sample.s0
           1%nat (Sample.tokens 30 12) 1%nat Sample.told
           (APIError "Connection error.") 2%nat).
  - reflexivity.
  - apply told_after_one_iteration. reflexivity.
  - unfold maxIterations. lia.
  - reflexivity.
Defined.

(** ** Further properties on the sample host *)

(** A request whose message is the number 0, and one without a body. *)
Lemma missing_message_is_refused_witness :
  Sample.chat_request [Normal (Sample.says "Hello")]
    (Some {| body_message := Num 0%Z; body_session_id := Some "s1" |}) Sample.s0
  = (Normal (status_json 400 (ErrorBody "Message is required")), Sample.s0)
  /\ Sample.chat_request [Normal (Sample.says "Hello")] None Sample.s0
     = (Normal (status_json 500 (ErrorBody "Failed to get response from LLM")),
        Sample.s0).
Proof.
  destruct (missing_message_is_refused Sample.number_falsy Sample.number_toString
              Sample.JSON_stringify nat Sample.new_Date
              (Sample.scripted [Normal (Sample.says "Hello")])
              Sample.valid_timezone Sample.s0) as [Hfalsy Hnone].
  split; [|exact Hnone].
  apply (Hfalsy {| body_message := Num 0%Z; body_session_id := Some "s1" |}).
  reflexivity.
Defined.


(** The same request appends to the empty transcript of a new session. *)
Lemma request_only_appends_witness :
  exists appended,
    messageHistory
      (snd (Sample.post_chat [Normal (Sample.asks_time (Obj []));
                              Normal (Sample.says "It is now noon")]
              (Str "What time is it?") None Sample.s0)) !! "default"
    = Some (Sample.history Sample.s0 "default"
              ++ user_turn (Str "What time is it?") :: appended)%list
    /\ (length appended <= 2 * maxIterations)%nat.
Proof.
  unfold Sample.post_chat, Sample.post_chat_with, Sample.history.
  apply (request_only_appends Sample.number_falsy Sample.number_toString
           Sample.JSON_stringify nat Sample.new_Date
           (Sample.scripted [Normal (Sample.asks_time (Obj []));
                             Normal (Sample.says "It is now noon")])
           Sample.valid_timezone
           (Str "What time is it?") None Sample.s0).
  reflexivity.
Defined.

(** A request to session "s1" leaves the default session as it was. *)
Lemma request_leaves_other_sessions_witness :
  messageHistory
    (snd (Sample.post_chat [Normal (Sample.says "Hello")] (Str "Hi") (Some "s1")
            Sample.asked)) !! "default"
  = messageHistory Sample.asked !! "default".
Proof.
  unfold Sample.post_chat, Sample.post_chat_with.
  apply (request_leaves_other_sessions Sample.number_falsy Sample.number_toString
           Sample.JSON_stringify nat Sample.new_Date
           (Sample.scripted [Normal (Sample.says "Hello")])
           Sample.valid_timezone
           (Str "Hi") (Some "s1") Sample.asked "default").
  discriminate.
Defined.

(** The request answered in two iterations reports the sum of the usages
    of the two responses it received. *)
Lemma reported_usage_is_sum_witness :
  exists (responses : list (ModelResponse Z)) s1 final w,
    Sample.tool_passes_with
      (Sample.scripted [Normal (Sample.asks_time (Obj []));
                        Normal (Sample.says "It is now noon")])
      "default" Sample.asked responses s1
    /\ Sample.scripted [Normal (Sample.asks_time (Obj []));
                        Normal (Sample.says "It is now noon")]
         (world s1) (Sample.history s1 "default")
       = (Normal final, w)
    /\ wants_tools final = false
    /\ 2%nat = S (length responses)
    /\ Sample.tokens 50 19 = sum_usage (responses ++ [final])
    /\ "It is now noon" = responseText (response_content final)
    /\ "default" = "default"
    /\ world
         (snd (Sample.post_chat [Normal (Sample.asks_time (Obj []));
                                 Normal (Sample.says "It is now noon")]
                 (Str "What time is it?") None Sample.s0))
       = w.
Proof.
  apply (reported_usage_is_sum Sample.number_falsy Sample.number_toString
           Sample.JSON_stringify nat Sample.new_Date
           (Sample.scripted [Normal (Sample.asks_time (Obj []));
                             Normal (Sample.says "It is now noon")])
           Sample.valid_timezone
           (Str "What time is it?") None Sample.s0 "It is now noon" "default"
           (Sample.tokens 50 19) 2%nat).
  vm_compute. reflexivity.
Defined.

(** The turns of the same request alternate. *)
Lemma request_turns_alternate_witness :
  exists added,
    messageHistory
      (snd (Sample.post_chat [Normal (Sample.asks_time (Obj []));
                              Normal (Sample.says "It is now noon")]
              (Str "What time is it?") None Sample.s0)) !! "default"
    = Some (Sample.history Sample.s0 "default" ++ added)%list
    /\ alternates user added = true.
Proof.
  unfold Sample.post_chat, Sample.post_chat_with, Sample.history.
  apply (request_turns_alternate Sample.number_falsy Sample.number_toString
           Sample.JSON_stringify nat Sample.new_Date
           (Sample.scripted [Normal (Sample.asks_time (Obj []));
                             Normal (Sample.says "It is now noon")])
           Sample.valid_timezone
           (Str "What time is it?") None Sample.s0).
  reflexivity.
Defined.

(** Reading the default session after a request the model failed. *)
Lemma get_after_post_witness :
  exists appended,
    get_chat nat "default"
      (snd (Sample.post_chat [] (Str "What time is it?") None Sample.s0))
    = (Normal (json (HistoryBody "default"
                       (Sample.history Sample.s0 "default"
                          ++ user_turn (Str "What time is it?") :: appended)%list)),
       snd (Sample.post_chat [] (Str "What time is it?") None Sample.s0)).
Proof.
  unfold Sample.post_chat, Sample.post_chat_with, Sample.history.
  apply (get_after_post Sample.number_falsy Sample.number_toString
           Sample.JSON_stringify nat Sample.new_Date
           (Sample.scripted [])
           Sample.valid_timezone
           (Str "What time is it?") None Sample.s0).
  reflexivity.
Defined.

(** Deleting the default session after one pass, then asking again. *)
Lemma post_after_delete_starts_afresh_witness :
  Sample.history
    (loop_start nat (Str "Hi") "default" (snd (delete_chat nat "default" Sample.told)))
    "default"
  = [user_turn (Str "Hi")]
  /\ exists appended,
      messageHistory
        (snd (Sample.post_chat [Normal (Sample.says "Hello")] (Str "Hi")
                (Some "default") (snd (delete_chat nat "default" Sample.told))))
        !! "default"
      = Some (user_turn (Str "Hi") :: appended).
Proof.
  unfold Sample.post_chat, Sample.post_chat_with, Sample.history.
  apply (post_after_delete_starts_afresh Sample.number_falsy Sample.number_toString
           Sample.JSON_stringify nat Sample.new_Date
           (Sample.scripted [Normal (Sample.says "Hello")])
           Sample.valid_timezone
           (Str "Hi") "default" Sample.told).
  reflexivity.
Defined.

(** Deleting "s1" keeps the default session; deleting it again answers 404. *)
Lemma delete_is_local_and_final_witness :
  messageHistory (snd (delete_chat nat "s1" Sample.asked)) !! "default"
  = messageHistory Sample.asked !! "default"
  /\ delete_chat nat "default" (snd (delete_chat nat "default" Sample.asked))
     = (Normal (status_json 404 (ErrorBody "Session not found")),
        snd (delete_chat nat "default" Sample.asked)).
Proof.
  split.
  - apply (delete_is_local_and_final nat "s1" Sample.asked). discriminate.
  - apply (delete_is_local_and_final nat "default" Sample.asked).
Defined.

(** The time in New York. *)
Lemma executeTool_valid_timezone_witness :
  Sample.executeTool "get_current_time"
    (Obj [("timezone", Str "America/New_York")]) Sample.s0
  = (Normal (TimeOutput "2025-01-01T12:00:00.000Z" "1/1/2025, 7:00:00 AM"
               (Str "America/New_York") 1735732800 None),
     Sample.s0).
Proof.
  apply (executeTool_valid_timezone Sample.number_falsy Sample.number_toString
           nat Sample.new_Date Sample.valid_timezone
           (Obj [("timezone", Str "America/New_York")]) (Str "America/New_York")
           Sample.s0 Sample.noon 0%nat "America/New_York"); reflexivity.
Defined.

(** The output for a time zone the host does not know. *)
Lemma executeTool_time_output_witness :
  exists tz zone formatted timezone unix_timestamp note,
    get_property (Obj [("timezone", Str "Mars/Phobos")]) "timezone"
    = Normal (tz : value Z)
    /\ ToString Sample.number_toString (js_or Sample.number_falsy tz (Str "UTC"))
       = Normal zone
    /\ TimeOutput "2025-01-01T12:00:00.000Z" "Wed, 01 Jan 2025 12:00:00 GMT"
         (Str "UTC") 1735732800
         (Some ("Invalid timezone " +:+ dquote +:+ "Mars/Phobos"
                  +:+ dquote +:+ ", defaulted to UTC"))
       = TimeOutput (toISOString Sample.noon) formatted timezone unix_timestamp note
    /\ Sample.s0 = {| world := 0%nat; messageHistory := messageHistory Sample.s0 |}
    /\ (1000 * unix_timestamp <= getTime Sample.noon
        < 1000 * unix_timestamp + 1000)%Z
    /\ (note = None <-> Sample.valid_timezone zone = true)
    /\ (note = None ->
        timezone = js_or Sample.number_falsy tz (Str "UTC")
        /\ formatted = toLocaleString Sample.noon zone)
    /\ (note <> None ->
        timezone = Str "UTC" /\ formatted = toUTCString Sample.noon).
Proof.
  apply (executeTool_time_output Sample.number_falsy Sample.number_toString
           nat Sample.new_Date Sample.valid_timezone
           (Obj [("timezone", Str "Mars/Phobos")]) Sample.s0 Sample.noon 0%nat
           (TimeOutput "2025-01-01T12:00:00.000Z" "Wed, 01 Jan 2025 12:00:00 GMT"
              (Str "UTC") 1735732800
              (Some ("Invalid timezone " +:+ dquote +:+ "Mars/Phobos"
                       +:+ dquote +:+ ", defaulted to UTC")))
           Sample.s0); reflexivity.
Defined.

(** A string given for input is not the time zone. *)
Lemma executeTool_ignores_non_object_input_witness :
  Sample.executeTool "get_current_time" (Str "America/New_York") Sample.s0
  = Sample.executeTool "get_current_time" (Obj []) Sample.s0.
Proof.
  apply (executeTool_ignores_non_object_input Sample.number_falsy
           Sample.number_toString nat Sample.new_Date Sample.valid_timezone
           "get_current_time" (Str "America/New_York") Sample.s0).
  - reflexivity.
  - discriminate.
Defined.

(** A tool that is not declared. *)
Lemma tools_are_dispatched_witness :
  (exists error s',
      Sample.executeTool "get_weather" (Obj []) Sample.s0
      = (Normal (ErrorOutput error), s'))
  <-> ~ In "get_weather" (map tool_name tools).
Proof.
  apply (tools_are_dispatched Sample.number_falsy Sample.number_toString
           nat Sample.new_Date Sample.valid_timezone
           "get_weather" (Obj []) Sample.s0).
  reflexivity.
Defined.
